(** * bioscrape: parameter identification interfaces ([pid_interfaces.py])

    A shallow embedding of [PIDInterface], [StochasticInference] and
    [DeterministicInference], and the properties of prior evaluation and
    of [get_likelihood_function] established on it.

    Modelling conventions.
    - Floats are modelled as the reals extended with [+inf], [-inf] and
      [nan].  The reals are needed because [gaussian_prior] uses
      [np.exp], [np.sqrt] and [np.pi].  The range of a float is
      modelled: a result whose magnitude exceeds the largest double
      overflows.  Rounding, underflow and the sign of zero are not
      modelled; where a theorem needs a divisor that is not zero, its
      hypothesis keeps the divisor from underflow too.
    - The entries of the prior hold Python floats.  The values in
      [params_values] are Python floats or numpy [float64] scalars (the
      elements of an array, as a sampler hands them over); which of the
      two is a field of the back end, so that the theorems hold for
      both.  The operators of the two types differ: on overflow numpy
      gives an infinity and a [RuntimeWarning], Python's [**] raises
      [OverflowError] and its [*] and [-] give an infinity; on a
      division by zero numpy gives an infinity or [nan] and a
      [RuntimeWarning], Python raises [ZeroDivisionError].  The
      warnings are logged.
    - A Python [dict] that is only read ([self.prior]) is a [gmap]; the
      dict built by [get_likelihood_function] is an insertion-ordered
      association list, because [check_prior] iterates over it.
    - Methods run in a state-and-exception monad over the interface
      object, the state of the external model and engines, and a log of
      the warnings, debug prints and back-end calls performed.
    - The likelihood back end ([bioscrape.inference]) is an interface
      ([Backend]); the theorems hold for every implementation. *)

From Stdlib Require Import Reals Lra List String Bool.
From stdpp Require Import base option list strings gmap.
Import ListNotations.

Local Open Scope string_scope.
Local Open Scope list_scope.
Local Open Scope R_scope.

(** ** Scalars *)

Inductive num : Type :=
| Finite (x : R)
| PInf
| NInf
| NaN.

Definition Rltb (a b : R) : bool := if Rlt_dec a b then true else false.
Definition Reqb (a b : R) : bool := if Req_dec_T a b then true else false.

(** [a < b] on floats: false as soon as one side is [nan]. *)
Definition num_lt (a b : num) : bool :=
  match a, b with
  | NaN, _ | _, NaN => false
  | Finite x, Finite y => Rltb x y
  | NInf, NInf => false
  | NInf, _ => true
  | _, PInf => match a with PInf => false | _ => true end
  | _, _ => false
  end.

Definition num_gt (a b : num) : bool := num_lt b a.

Definition num_le (a b : num) : bool :=
  match a, b with
  | NaN, _ | _, NaN => false
  | _, _ => negb (num_lt b a)
  end.

(** [np.isfinite] *)
Definition isfinite (a : num) : bool :=
  match a with Finite _ => true | _ => false end.

Definition num_neg (a : num) : num :=
  match a with
  | Finite x => Finite (- x)
  | PInf => NInf
  | NInf => PInf
  | NaN => NaN
  end.

Definition num_add (a b : num) : num :=
  match a, b with
  | NaN, _ | _, NaN => NaN
  | Finite x, Finite y => Finite (x + y)
  | PInf, NInf | NInf, PInf => NaN
  | PInf, _ | _, PInf => PInf
  | NInf, _ | _, NInf => NInf
  end.

Definition num_sub (a b : num) : num := num_add a (num_neg b).

(** The infinity with the sign of [x * s] for [s] infinite of sign
    [pos]; [nan] when [x] is zero. *)
Definition inf_signed (pos : bool) (x : R) : num :=
  if Reqb x 0 then NaN
  else if Bool.eqb pos (Rltb 0 x) then PInf else NInf.

Definition num_mul (a b : num) : num :=
  match a, b with
  | NaN, _ | _, NaN => NaN
  | Finite x, Finite y => Finite (x * y)
  | Finite x, PInf | PInf, Finite x => inf_signed true x
  | Finite x, NInf | NInf, Finite x => inf_signed false x
  | PInf, PInf | NInf, NInf => PInf
  | PInf, NInf | NInf, PInf => NInf
  end.

(** The exact quotient, in the IEEE sense that numpy follows: dividing
    by zero gives an infinity, or [nan] for [0/0]. *)
Definition num_div (a b : num) : num :=
  match a, b with
  | NaN, _ | _, NaN => NaN
  | Finite x, Finite y =>
      if Reqb y 0 then
        (if Reqb x 0 then NaN else if Rltb 0 x then PInf else NInf)
      else Finite (x / y)
  | Finite _, (PInf | NInf) => Finite 0
  | PInf, Finite y => if Rltb y 0 then NInf else PInf
  | NInf, Finite y => if Rltb y 0 then PInf else NInf
  | (PInf | NInf), (PInf | NInf) => NaN
  end.

(** [x ** 2] *)
Definition num_sq (a : num) : num := num_mul a a.

(** [np.exp] *)
Definition num_exp (a : num) : num :=
  match a with
  | Finite x => Finite (exp x)
  | PInf => PInf
  | NInf => Finite 0
  | NaN => NaN
  end.

(** [np.sqrt(2*np.pi)] *)
Definition sqrt_2pi : num := Finite (sqrt (2 * PI)).

(** The largest double, [(2 - 2**-52) * 2**1023], and the smallest
    positive one, [2**-1074]. *)
Definition float_max : R := IZR ((2 ^ 53 - 1) * 2 ^ 971).

Definition float_tiny : R := / IZR (2 ^ 1074).

(** The float that stands for an exact result, as far as the range
    goes: a finite result beyond the largest double is an infinity. *)
Definition float_of (r : num) : num :=
  match r with
  | Finite x =>
      if Rltb float_max (Rabs x) then (if Rltb 0 x then PInf else NInf)
      else r
  | _ => r
  end.

(** The two types of float the module computes with: Python's [float]
    and numpy's [float64] scalar (an element of an array). *)
Inductive float_kind : Type :=
| PyFloat
| NpFloat64.

(** The floating-point errors that numpy reports with a
    [RuntimeWarning], and the operations of this module that can report
    them. *)
Inductive fp_error : Type :=
| Overflow
| DivideByZero
| Invalid.

Inductive np_op : Type :=
| NpMultiply
| NpDivide
| NpSubtract
| NpPower
| NpExp.

Definition is_nan (a : num) : bool :=
  match a with NaN => true | _ => false end.

(** What a numpy scalar operation returns and reports, from its operands
    and the exact result [r]: a finite result out of range becomes an
    infinity (overflow); a [nan] that no operand brought is an invalid
    operation; an infinity out of finite operands is a division by
    zero. *)
Definition np_outcome (args : list num) (r : num) : num * option fp_error :=
  match r with
  | Finite x =>
      if Rltb float_max (Rabs x)
      then (if Rltb 0 x then PInf else NInf, Some Overflow)
      else (r, None)
  | NaN => (NaN, if existsb is_nan args then None else Some Invalid)
  | _ => (r, if forallb isfinite args then Some DivideByZero else None)
  end.

(** Whether a float is zero. *)
Definition is_zero (a : num) : bool :=
  match a with Finite x => Reqb x 0 | _ => false end.

(** ** Python values, dictionaries and exceptions *)

(** An element of a prior entry
    [['prior_name', prior_distribution_parameters...]]. *)
Inductive pyval : Type :=
| PStr (s : string)
| PNum (x : num).

(** [self.prior]: [None] or a dictionary from parameter names to
    entries. *)
Abbreviation prior_dict := (gmap string (list pyval)).

(** [params_dict]: a dict in insertion order. *)
Abbreviation params_dict := (list (string * num)).

(** [d[key] = p] *)
Fixpoint dict_set (d : params_dict) (key : string) (p : num) : params_dict :=
  match d with
  | [] => [(key, p)]
  | (k, v) :: d' =>
      if String.eqb k key then (k, p) :: d' else (k, v) :: dict_set d' key p
  end.

(** [zip]: stops at the end of the shorter sequence. *)
Fixpoint zip {A B : Type} (l : list A) (l' : list B) : list (A * B) :=
  match l, l' with
  | a :: t, b :: t' => (a, b) :: zip t t'
  | _, _ => []
  end.

(** The loop [for key, p in zip(...): params_dict[key] = p], started
    from the dict [d]. *)
Definition fill_params_dict (d : params_dict) (pairs : list (string * num))
  : params_dict :=
  fold_left (fun d kp => dict_set d (fst kp) (snd kp)) pairs d.

Inductive exn : Type :=
| KeyError (key : string)
| IndexError
| TypeError
| OverflowError
| ZeroDivisionError
| ValueError (msg : string).

Inductive result (A : Type) : Type :=
| Ok (a : A)
| Raise (e : exn).
Arguments Ok {A} a.
Arguments Raise {A} e.

(** A numpy array, as far as this module looks at it: [np.shape] and the
    contents handed on. *)
Record ndarray : Type := mk_ndarray {
  shape : list nat;
  flat : list num
}.

(** What a debug [print] formats into its message. *)
Inductive printed : Type :=
| PrShape (s : list nat)
| PrNames (l : list string)
| PrInt (n : nat).

(** ** The likelihood back end ([bioscrape.inference])

    The four imported classes and the two methods called on a likelihood
    object.  Every call acts on the state of the external world (the
    model and the engines) and may raise.  The record also says which
    type of float the caller passes in [params_values]: Python's
    operators and numpy's differ on overflow and on division by zero. *)
Record Backend : Type := {
  (** [type(p)] for [p] in [params_values] *)
  scalar_kind : float_kind;
  Model : Type;
  World : Type;
  DataObj : Type;
  Engine : Type;
  StochasticTrajectories :
    ndarray -> ndarray -> list string -> nat ->
    World -> result DataObj * World;
  BulkData :
    ndarray -> ndarray -> list string -> nat ->
    World -> result DataObj * World;
  STLL :
    Model -> list params_dict -> DataObj -> nat -> nat ->
    World -> result Engine * World;
  DLL :
    Model -> list params_dict -> DataObj -> nat ->
    World -> result Engine * World;
  (** [bool(LL)] *)
  truthy : Engine -> bool;
  set_init_params : Engine -> params_dict -> World -> result unit * World;
  py_log_likelihood : Engine -> World -> result num * World
}.

Section Interfaces.

Variable B : Backend.

(** A call into the back end, with its arguments. *)
Inductive call : Type :=
| CStochasticTrajectories (timepoints data : ndarray)
    (measurements : list string) (N : nat)
| CBulkData (timepoints data : ndarray) (measurements : list string) (N : nat)
| CSTLL (model : Model B) (init_state : list params_dict) (data : DataObj B)
    (N_simulations norm_order : nat)
| CDLL (model : Model B) (init_state : list params_dict) (data : DataObj B)
    (norm_order : nat)
| Cset_init_params (LL : Engine B) (params : params_dict)
| Cpy_log_likelihood (LL : Engine B).

Inductive event : Type :=
| Warn (msg : string)
| RuntimeWarn (err : fp_error) (op : np_op)
| Print (fmt : string) (arg : printed)
| Call (c : call).

(** The attributes of a [PIDInterface] object. *)
Record PIDInterface : Type := mk_PIDInterface {
  params_to_estimate : list string;
  M : Model B;
  prior : option prior_dict
}.

Record state : Type := mk_state {
  self : PIDInterface;
  world : World B;
  log : list event
}.

(** ** The monad of methods *)

Definition Py (A : Type) : Type := state -> result A * state.

Definition ret {A} (a : A) : Py A := fun st => (Ok a, st).

Definition raise {A} (e : exn) : Py A := fun st => (Raise e, st).

Definition bind {A C} (m : Py A) (k : A -> Py C) : Py C :=
  fun st =>
    match m st with
    | (Ok a, st') => k a st'
    | (Raise e, st') => (Raise e, st')
    end.

#[global] Instance Py_ret : MRet Py := @ret.
#[global] Instance Py_bind : MBind Py := fun A C k m => bind m k.

(** Reading an attribute of [self]. *)
Definition attr {A} (f : PIDInterface -> A) : Py A :=
  fun st => (Ok (f (self st)), st).

(** Assigning the attributes of [self]. *)
Definition set_self (s : PIDInterface) : Py unit :=
  fun st => (Ok tt, mk_state s (world st) (log st)).

Definition emit (e : event) : Py unit :=
  fun st => (Ok tt, mk_state (self st) (world st) (log st ++ [e])).

(** [warnings.warn(msg)] *)
Definition warn (msg : string) : Py unit := emit (Warn msg).

(** [print(fmt.format(arg))] *)
Definition print (fmt : string) (arg : printed) : Py unit :=
  emit (Print fmt arg).

(** A call into the back end: logged, then run on the world. *)
Definition backend {A} (c : call) (f : World B -> result A * World B) : Py A :=
  fun st =>
    let (r, w) := f (world st) in
    (r, mk_state (self st) w (log st ++ [Call c])).

(** [l[i]] on a list *)
Definition index {A} (l : list A) (i : nat) : Py A :=
  match nth_error l i with
  | Some a => ret a
  | None => raise IndexError
  end.

(** A scalar operand of float arithmetic or comparison: a string there
    raises [TypeError]. *)
Definition operand (v : pyval) : Py num :=
  match v with
  | PNum x => ret x
  | PStr _ => raise TypeError
  end.

(** [self.prior[key]]: [None] is not subscriptable, a missing key raises
    [KeyError]. *)
Definition prior_getitem (key : string) : Py (list pyval) :=
  p ← attr prior;
  match p with
  | None => raise TypeError
  | Some d =>
      match d !! key with
      | Some e => ret e
      | None => raise (KeyError key)
      end
  end.

(** ** [PIDInterface] *)

(** [PIDInterface.__init__] *)
Definition PIDInterface_init (params_to_estimate0 : list string)
    (M0 : Model B) (prior0 : option prior_dict) : Py unit :=
  set_self (mk_PIDInterface params_to_estimate0 M0 prior0).

(** [PIDInterface.uniform_prior] *)
Definition uniform_prior (param_name : string) (param_value : num) : Py num :=
  prior_dict ← attr prior;
  match prior_dict with
  | None => raise (ValueError "No prior found")
  | Some _ =>
      entry ← prior_getitem param_name;
      if negb (Nat.eqb (length entry) 3) then
        raise (ValueError "For uniform distribution, the prior dictionary entry must be : [prior_type, lower_bound, upper_bound]")
      else
        lower_bound ← index entry 1;
        upper_bound ← index entry 2;
        ub ← operand upper_bound;
        if num_gt param_value ub then ret PInf
        else
          lb ← operand lower_bound;
          if num_lt param_value lb then ret PInf else ret (Finite 0)
  end.

(** A numpy scalar operation with exact result [exact]: numpy's
    [RuntimeWarning], if any, goes through [warnings]. *)
Definition numpy (op : np_op) (args : list num) (exact : num) : Py num :=
  match np_outcome args exact with
  | (r, Some err) => emit (RuntimeWarn err op);; ret r
  | (r, None) => ret r
  end.

Definition np_multiply (a b : num) : Py num := numpy NpMultiply [a; b] (num_mul a b).
Definition np_divide (a b : num) : Py num := numpy NpDivide [a; b] (num_div a b).
Definition np_subtract (a b : num) : Py num := numpy NpSubtract [a; b] (num_sub a b).
Definition np_square (a : num) : Py num := numpy NpPower [a] (num_sq a).
Definition np_exp (a : num) : Py num := numpy NpExp [a] (num_exp a).

(** [x**2] on a Python float: [OverflowError] when the result is out of
    range. *)
Definition py_float_sq (x : num) : Py num :=
  match num_sq x with
  | Finite y => if Rltb float_max (Rabs y) then raise OverflowError else ret (Finite y)
  | r => ret r
  end.

(** [*] and [-] on Python floats: no exception and no warning, an
    out-of-range result is an infinity. *)
Definition py_float (exact : num) : Py num := ret (float_of exact).

(** [x / y] on Python floats: [ZeroDivisionError] when [y] is zero. *)
Definition py_float_div (x y : num) : Py num :=
  if is_zero y then raise ZeroDivisionError
  else ret (float_of (num_div x y)).

(** The operators applied to [param_value] and to what is computed from
    it: numpy's on a numpy scalar, Python's on a Python float. *)
Definition scalar_multiply (a b : num) : Py num :=
  match scalar_kind B with
  | NpFloat64 => np_multiply a b
  | PyFloat => py_float (num_mul a b)
  end.

Definition scalar_subtract (a b : num) : Py num :=
  match scalar_kind B with
  | NpFloat64 => np_subtract a b
  | PyFloat => py_float (num_sub a b)
  end.

Definition scalar_square (a : num) : Py num :=
  match scalar_kind B with
  | NpFloat64 => np_square a
  | PyFloat => py_float_sq a
  end.

Definition scalar_divide (a b : num) : Py num :=
  match scalar_kind B with
  | NpFloat64 => np_divide a b
  | PyFloat => py_float_div a b
  end.

(** The assignment
    [prob = 1/(np.sqrt(2*np.pi) * sigma) * np.exp((-0.5*param_value - mu)**2/sigma**2)]
    of [gaussian_prior], in the order Python evaluates it:
    [np.sqrt(2*np.pi) * sigma], [1/...], [-0.5*param_value], [... - mu],
    [...**2], [sigma**2], the quotient, [np.exp(...)] and the product.
    [mu] and [sigma] are elements of the prior entry, Python floats:
    [sigma**2] is Python's and raises on overflow.  What meets a result
    of [np.sqrt] or [np.exp] is numpy's, which warns and goes on.  The
    operations on [param_value] are of its type. *)
Definition gaussian_prob (param_value : num) (mu sigma : pyval) : Py num :=
  s ← operand sigma;
  t1 ← np_multiply sqrt_2pi s;
  t2 ← np_divide (Finite 1) t1;
  t3 ← scalar_multiply (Finite (- (1 / 2))) param_value;
  m ← operand mu;
  t4 ← scalar_subtract t3 m;
  t5 ← scalar_square t4;
  t6 ← py_float_sq s;
  t7 ← scalar_divide t5 t6;
  t8 ← np_exp t7;
  np_multiply t2 t8.

(** The body of [gaussian_prior] for the entry found under
    [param_name]. *)
Definition gaussian_entry (entry : list pyval) (param_value : num) : Py num :=
  if negb (Nat.eqb (length entry) 4) then
    raise (ValueError "For Gaussian distribution, the dictionary entry must be : [prior_type, mean, std_dev, probability_threshold]")
  else
    mu ← index entry 1;
    sigma ← index entry 2;
    prob_threshold ← index entry 3;
    prob ← gaussian_prob param_value mu sigma;
    (if num_gt prob (Finite 1) then
       warn "Probability greater than 1 while checking Gaussian prior! Something is wrong..."
     else ret tt);;
    thr ← operand prob_threshold;
    if num_lt prob thr then ret PInf else ret (Finite 0).

(** [PIDInterface.gaussian_prior] *)
Definition gaussian_prior (param_name : string) (param_value : num) : Py num :=
  prior_dict ← attr prior;
  match prior_dict with
  | None => raise (ValueError "No prior found")
  | Some _ =>
      entry ← prior_getitem param_name;
      gaussian_entry entry param_value
  end.

(** [prior_type == 'uniform'] *)
Definition tag_is (prior_type : pyval) (tag : string) : bool :=
  match prior_type with
  | PStr s => String.eqb s tag
  | PNum _ => false
  end.

(** One iteration of the loop of [check_prior]: the new value of [lp]. *)
Definition check_prior_step (lp : num) (key : string) (value : num) : Py num :=
  entry ← prior_getitem key;
  prior_type ← index entry 0;
  if tag_is prior_type "uniform" then
    c ← uniform_prior key value; ret (num_add lp c)
  else if tag_is prior_type "gaussian" then
    c ← gaussian_prior key value; ret (num_add lp c)
  else raise (ValueError "Prior type undefined.").

(** The loop of [check_prior] over the remaining items, from the current
    value of [lp]. *)
Fixpoint check_prior_loop (lp : num) (items : params_dict) : Py num :=
  match items with
  | [] => ret lp
  | (key, value) :: rest =>
      lp' ← check_prior_step lp key value;
      check_prior_loop lp' rest
  end.

(** [PIDInterface.check_prior] *)
Definition check_prior (params_dict : params_dict) : Py num :=
  check_prior_loop (Finite 0) params_dict.

(** ** [StochasticInference] and [DeterministicInference] *)

(** [np.array(timepoints)]: the conversion keeps shape and contents. *)
Definition np_array (a : ndarray) : ndarray := a.

(** The four debug prints. *)
Definition debug_prints (timepoints data : ndarray)
    (measurements : list string) (N : nat) : Py unit :=
  print "The timepoints shape is {0}" (PrShape (shape timepoints));;
  print "The data shape is {0}" (PrShape (shape data));;
  print "The measurmenets is {0}" (PrNames measurements);;
  print "The N is {0}" (PrInt N).

(** The named parameters: [params_dict = {}] filled from
    [zip(self.params_to_estimate, params_values)]. *)
Definition named_params (names : list string) (params_values : list num)
  : params_dict :=
  fill_params_dict [] (zip names params_values).

(** [StochasticInference.get_likelihood_function]; the result is [None]
    when the body ends without a [return]. *)
Definition Stochastic_get_likelihood_function
    (params_values : list num) (data timepoints : ndarray)
    (measurements : list string) (initial_conditions : list params_dict)
    (norm_order N_simulations : nat) (debug : bool) : Py (option num) :=
  M0 ← attr M;
  names ← attr params_to_estimate;
  let params_dict := named_params names params_values in
  lp ← check_prior params_dict;
  if negb (isfinite lp) then ret (Some NInf)
  else
    N ← index (shape data) 0;
    (if debug then debug_prints timepoints data measurements N else ret tt);;
    dataStoch ←
      backend (CStochasticTrajectories (np_array timepoints) data measurements N)
        (StochasticTrajectories B (np_array timepoints) data measurements N);
    LL_stoch ←
      backend (CSTLL M0 initial_conditions dataStoch N_simulations norm_order)
        (STLL B M0 initial_conditions dataStoch N_simulations norm_order);
    if truthy B LL_stoch then
      backend (Cset_init_params LL_stoch params_dict)
        (set_init_params B LL_stoch params_dict);;
      LL_stoch_cost ←
        backend (Cpy_log_likelihood LL_stoch) (py_log_likelihood B LL_stoch);
      let ln_prob := num_add lp LL_stoch_cost in
      ret (Some ln_prob)
    else ret None.

(** [DeterministicInference.get_likelihood_function]; the assignment
    [lp = 0] is overwritten at once by [lp = self.check_prior(...)]. *)
Definition Deterministic_get_likelihood_function
    (params_values : list num) (data timepoints : ndarray)
    (measurements : list string) (initial_conditions : list params_dict)
    (norm_order : nat) (debug : bool) : Py (option num) :=
  M0 ← attr M;
  names ← attr params_to_estimate;
  let params_dict := named_params names params_values in
  lp ← check_prior params_dict;
  if negb (isfinite lp) then ret (Some NInf)
  else
    N ← index (shape data) 0;
    dataDet ←
      backend (CBulkData (np_array timepoints) data measurements N)
        (BulkData B (np_array timepoints) data measurements N);
    (if debug then debug_prints timepoints data measurements N else ret tt);;
    LL_det ←
      backend (CDLL M0 initial_conditions dataDet norm_order)
        (DLL B M0 initial_conditions dataDet norm_order);
    if truthy B LL_det then
      backend (Cset_init_params LL_det params_dict)
        (set_init_params B LL_det params_dict);;
      LL_det_cost ←
        backend (Cpy_log_likelihood LL_det) (py_log_likelihood B LL_det);
      let ln_prob := num_add lp LL_det_cost in
      ret (Some ln_prob)
    else ret None.

(** The back-end calls recorded in a log. *)
Definition calls (l : list event) : list call :=
  omap (fun e => match e with Call c => Some c | _ => None end) l.

(** What a back-end call makes of the external world. *)
Definition run_call (c : call) (w : World B) : World B :=
  match c with
  | CStochasticTrajectories timepoints data measurements N =>
      snd (StochasticTrajectories B timepoints data measurements N w)
  | CBulkData timepoints data measurements N =>
      snd (BulkData B timepoints data measurements N w)
  | CSTLL model init_state data N_simulations norm_order =>
      snd (STLL B model init_state data N_simulations norm_order w)
  | CDLL model init_state data norm_order =>
      snd (DLL B model init_state data norm_order w)
  | Cset_init_params LL params => snd (set_init_params B LL params w)
  | Cpy_log_likelihood LL => snd (py_log_likelihood B LL w)
  end.

(** The external world after the calls [cs], made in this order. *)
Definition replay (cs : list call) (w : World B) : World B :=
  fold_left (fun w c => run_call c w) cs w.

(** A back end in which the binding of the parameters is the only
    change to the external world: the constructors and
    [py_log_likelihood] leave it as it is. *)
Definition only_binding_mutates : Prop :=
  (forall timepoints data measurements N w,
     snd (StochasticTrajectories B timepoints data measurements N w) = w) /\
  (forall timepoints data measurements N w,
     snd (BulkData B timepoints data measurements N w) = w) /\
  (forall model init_state data N_simulations norm_order w,
     snd (STLL B model init_state data N_simulations norm_order w) = w) /\
  (forall model init_state data norm_order w,
     snd (DLL B model init_state data norm_order w) = w) /\
  (forall LL w, snd (py_log_likelihood B LL w) = w).

End Interfaces.

Arguments ret {B A} a st.
Arguments raise {B A} e st.
Arguments bind {B A C} m k st.
Arguments attr {B A} f st.
Arguments emit {B} e st.
Arguments warn {B} msg st.
Arguments print {B} fmt arg st.
Arguments backend {B A} c f st.
Arguments index {B A} l i st.
Arguments operand {B} v st.
Arguments prior_getitem {B} key st.
Arguments uniform_prior {B} param_name param_value st.
Arguments gaussian_prior {B} param_name param_value st.
Arguments numpy {B} op args exact st.
Arguments np_multiply {B} a b st.
Arguments np_divide {B} a b st.
Arguments np_subtract {B} a b st.
Arguments np_square {B} a st.
Arguments np_exp {B} a st.
Arguments py_float_sq {B} x st.
Arguments py_float {B} exact st.
Arguments py_float_div {B} x y st.
Arguments scalar_multiply {B} a b st.
Arguments scalar_subtract {B} a b st.
Arguments scalar_square {B} a st.
Arguments scalar_divide {B} a b st.
Arguments gaussian_prob {B} param_value mu sigma st.
Arguments gaussian_entry {B} entry param_value st.
Arguments RuntimeWarn {B} err op.
Arguments check_prior_step {B} lp key value st.
Arguments check_prior_loop {B} lp items st.
Arguments check_prior {B} params_dict st.
Arguments Stochastic_get_likelihood_function {B}.
Arguments Deterministic_get_likelihood_function {B}.
Arguments calls {B} l.
Arguments run_call {B} c w.
Arguments replay {B} cs w.
Arguments mk_state {B} self world log.
Arguments mk_PIDInterface {B} params_to_estimate M prior.
Arguments self {B} s.
Arguments world {B} s.
Arguments log {B} s.
Arguments params_to_estimate {B} p.
Arguments M {B} p.
Arguments prior {B} p.
Arguments Warn {B} msg.
Arguments Print {B} fmt arg.
Arguments Call {B} c.

(** ** A stub back end and example configurations *)

(** A back end that counts the calls it receives: every constructor
    succeeds, the likelihood object has the given truth value and
    [py_log_likelihood] returns [ll].  The caller passes numpy
    scalars. *)
Definition stub_backend (engine_truth : bool) (ll : num) : Backend := {|
  scalar_kind := NpFloat64;
  Model := unit;
  World := nat;
  DataObj := nat;
  Engine := unit;
  StochasticTrajectories := fun _ _ _ N w => (Ok N, S w);
  BulkData := fun _ _ _ N w => (Ok N, S w);
  STLL := fun _ _ _ _ _ w => (Ok tt, S w);
  DLL := fun _ _ _ _ w => (Ok tt, S w);
  truthy := fun _ => engine_truth;
  set_init_params := fun _ _ w => (Ok tt, S w);
  py_log_likelihood := fun _ w => (Ok ll, S w)
|}.

(** [{"k1": ["uniform", 0, 1], "k2": ["uniform", 0, 1]}] *)
Definition uniform_01 : prior_dict :=
  <["k1" := [PStr "uniform"; PNum (Finite 0); PNum (Finite 1)]]>
  (<["k2" := [PStr "uniform"; PNum (Finite 0); PNum (Finite 1)]]> ∅).

(** [{"k": ["gaussian", 0, 1, 0.1]}] *)
Definition gaussian_0_1 : prior_dict :=
  <["k" := [PStr "gaussian"; PNum (Finite 0); PNum (Finite 1);
            PNum (Finite (1 / 10))]]> ∅.

(** A freshly constructed interface over the stub back end, before any
    back-end call. *)
Definition fresh (B : Backend) (m : Model B) (w : World B)
    (names : list string) (p : prior_dict) : state B :=
  mk_state (mk_PIDInterface names m (Some p)) w [].

(** The state with [self.prior] replaced. *)
Definition with_prior {B} (p : option prior_dict) (st : state B) : state B :=
  mk_state (mk_PIDInterface (params_to_estimate (self st)) (M (self st)) p)
    (world st) (log st).

(** The state with [self.params_to_estimate] replaced. *)
Definition with_names {B} (names : list string) (st : state B) : state B :=
  mk_state (mk_PIDInterface names (M (self st)) (prior (self st)))
    (world st) (log st).

(** Data of shape [(N, 10)]. *)
Definition data_of (N : nat) : ndarray := mk_ndarray [N; 10%nat] [].

Definition timepoints_10 : ndarray := mk_ndarray [10%nat] [].

(** The stub back end with a truthy likelihood object whose
    log-likelihood is [-3.2]. *)
Definition example_backend : Backend := stub_backend true (Finite (- (16 / 5))).

(** The interface [(["k1", "k2"], M, uniform_01)] before any call. *)
Definition example_state : state example_backend :=
  fresh example_backend tt 0%nat ["k1"; "k2"] uniform_01.

(** [{"k1": 0.5, "k2": 2.0}] *)
Definition example_params : params_dict :=
  [("k1", Finite (1 / 2)); ("k2", Finite 2)].

(** [uniform_01] with one more entry, for a parameter that is not
    estimated. *)
Definition uniform_01_extra : prior_dict :=
  <["k3" := [PStr "gaussian"]]> uniform_01.

(** The stub back end whose log-likelihood is [nan]. *)
Definition nan_backend : Backend := stub_backend true NaN.

(** The stub back end whose likelihood objects are falsy. *)
Definition falsy_backend : Backend := stub_backend false (Finite (- (16 / 5))).

(** Interfaces [(["k1", "k2"], M, uniform_01)] over these back ends. *)
Definition nan_state : state nan_backend :=
  fresh nan_backend tt 0%nat ["k1"; "k2"] uniform_01.

Definition falsy_state : state falsy_backend :=
  fresh falsy_backend tt 0%nat ["k1"; "k2"] uniform_01.

Definition one_initial_condition : list params_dict := [[("x", Finite 0)]].


(** The interface [(["k"], M, gaussian_0_1)] before any call. *)
Definition gaussian_state : state example_backend :=
  fresh example_backend tt 0%nat ["k"] gaussian_0_1.

(** [{"k1": 0.5, "k2": 0.5}] *)
Definition admissible_params : params_dict :=
  [("k1", Finite (1 / 2)); ("k2", Finite (1 / 2))].

(** The density the specification asks for:
    [exp(-0.5*((value-mean)/std_dev)^2) / (std_dev*sqrt(2π))]. *)
Definition spec_gaussian_density (value mean std_dev : R) : R :=
  exp (- (1 / 2) * ((value - mean) / std_dev) ^ 2) / (std_dev * sqrt (2 * PI)).

(** What a method that only evaluates priors may change: it leaves
    [self] and the external world alone and calls nothing in the back
    end (it may warn). *)
Definition frame {B} (st st' : state B) : Prop :=
  self st' = self st /\ world st' = world st /\ calls (log st') = calls (log st).

(** The contribution of one parameter to the log-prior: what the
    evaluator that [check_prior] selects by the tag returns for it. *)
Definition contribution {B} (key : string) (value : num) : Py B num :=
  entry ← prior_getitem key;
  prior_type ← index entry 0;
  if tag_is prior_type "uniform" then uniform_prior key value
  else if tag_is prior_type "gaussian" then gaussian_prior key value
  else raise (ValueError "Prior type undefined.").

(** A finite real within the range of a double. *)
Definition in_range (x : R) : Prop := Rabs x <= float_max.

(** [x**2] is within the range of a float. *)
Definition square_in_range (x : num) : Prop :=
  match num_sq x with
  | Finite y => in_range y
  | _ => True
  end.

(** [sigma**2] is a float to divide by: within the range and not zero,
    not by underflow either. *)
Definition square_is_divisor (sigma : num) : Prop :=
  match sigma with
  | Finite s => float_tiny <= s * s <= float_max
  | _ => True
  end.

(** The two built-in entry formats of the docstring of [__init__], with
    numbers in the numeric places. *)
Definition docstring_entry (e : list pyval) : Prop :=
  (exists lower upper, e = [PStr "uniform"; PNum lower; PNum upper]) \/
  (exists mean std_dev threshold,
      e = [PStr "gaussian"; PNum mean; PNum std_dev; PNum threshold]).

(** [-0.5*param_value - mu], the number that [gaussian_prior] squares. *)
Definition shifted (value mean : num) : num :=
  num_sub (num_mul (Finite (- (1 / 2))) value) mean.

(** An entry in one of the two formats on which float arithmetic raises
    nothing at [value]: the square of a Gaussian standard deviation is
    a float to divide by, and the square of [-0.5*value - mean] is within
    the range of a float. *)
Definition well_formed_entry (e : list pyval) (value : num) : Prop :=
  (exists lower upper, e = [PStr "uniform"; PNum lower; PNum upper]) \/
  (exists mean std_dev threshold,
      e = [PStr "gaussian"; PNum mean; PNum std_dev; PNum threshold] /\
      square_is_divisor std_dev /\
      square_in_range (shifted value mean)).

(** Every name of the mapping [d] has in [p] an entry that is
    well-formed at its value. *)
Definition well_formed_for (p : prior_dict) (d : params_dict) : Prop :=
  forall key value, In (key, value) d ->
    exists e, p !! key = Some e /\ well_formed_entry e value.

(** A sum in which [-inf] meets no [+inf] and no [nan]: every term is
    [-inf] or finite. *)
Definition neg_inf_or_finite (c : num) : Prop :=
  c = NInf \/ isfinite c = true.

(** [{"k": ["gaussian", 0, 1e200, 0]}] *)
Definition gaussian_wide : prior_dict :=
  <["k" := [PStr "gaussian"; PNum (Finite 0); PNum (Finite (IZR (10 ^ 200)));
            PNum (Finite 0)]]> ∅.

(** The interface [(["k"], M, gaussian_wide)] before any call. *)
Definition wide_state : state example_backend :=
  fresh example_backend tt 0%nat ["k"] gaussian_wide.

(** The stub back end, with a caller that passes Python floats. *)
Definition python_backend : Backend := {|
  scalar_kind := PyFloat;
  Model := unit;
  World := nat;
  DataObj := nat;
  Engine := unit;
  StochasticTrajectories := fun _ _ _ N w => (Ok N, S w);
  BulkData := fun _ _ _ N w => (Ok N, S w);
  STLL := fun _ _ _ _ _ w => (Ok tt, S w);
  DLL := fun _ _ _ _ w => (Ok tt, S w);
  truthy := fun _ => true;
  set_init_params := fun _ _ w => (Ok tt, S w);
  py_log_likelihood := fun _ w => (Ok (Finite (- (16 / 5))), S w)
|}.

(** [{"k": ["gaussian", 0, 0.0, 0.1]}] *)
Definition gaussian_zero_std : prior_dict :=
  <["k" := [PStr "gaussian"; PNum (Finite 0); PNum (Finite 0);
            PNum (Finite (1 / 10))]]> ∅.

(** The interfaces [(["k"], M, gaussian_zero_std)] and
    [(["k"], M, gaussian_0_1)] of that caller. *)
Definition zero_std_state : state python_backend :=
  fresh python_backend tt 0%nat ["k"] gaussian_zero_std.

Definition python_gaussian_state : state python_backend :=
  fresh python_backend tt 0%nat ["k"] gaussian_0_1.

(** [{"k1": ["uniform", 0, 1], "k": ["gaussian", 0, 1, 0.1]}] *)
Definition uniform_and_gaussian : prior_dict :=
  <["k1" := [PStr "uniform"; PNum (Finite 0); PNum (Finite 1)]]> gaussian_0_1.

(** The interface [(["k1", "k"], M, uniform_and_gaussian)] before any
    call, and the mapping [{"k1": 0.5, "k": 4.0}]. *)
Definition mixed_state : state example_backend :=
  fresh example_backend tt 0%nat ["k1"; "k"] uniform_and_gaussian.

Definition mixed_params : params_dict :=
  [("k1", Finite (1 / 2)); ("k", Finite 4)].

(** The two values a prior evaluator returns. *)
Definition prior_value (c : num) : Prop := c = Finite 0 \/ c = PInf.

(** The back-end calls one scoring call may add to the log, given the
    constructor calls of the variant: none; or the data container, then
    the likelihood object, then [set_init_params] with the named
    parameters, then [py_log_likelihood], stopping where a call raises or
    the likelihood object is falsy. *)
Definition scoring_calls {B} (data : ndarray)
    (mk_data : nat -> call B) (mk_engine : DataObj B -> call B)
    (named : params_dict) (cs : list (call B)) : Prop :=
  cs = [] \/
  exists N, nth_error (shape data) 0 = Some N /\
    (cs = [mk_data N] \/
     (exists d, cs = [mk_data N; mk_engine d]) \/
     (exists d e, cs = [mk_data N; mk_engine d; Cset_init_params B e named]) \/
     (exists d e, cs = [mk_data N; mk_engine d; Cset_init_params B e named;
                        Cpy_log_likelihood B e])).

(** [uniform_01] with an entry of an unknown distribution for [k3]. *)
Definition prior_unknown_tag : prior_dict :=
  <["k3" := [PStr "lognormal"; PNum (Finite 0); PNum (Finite 1)]]> uniform_01.

(** [uniform_01] with a uniform entry for [k3] that lacks its upper
    bound. *)
Definition prior_short_uniform : prior_dict :=
  <["k3" := [PStr "uniform"; PNum (Finite 0)]]> uniform_01.

(** An entry that [check_prior] can dispatch on: tagged ['uniform'] with
    three elements or ['gaussian'] with four. *)
Definition recognized_entry (e : list pyval) : Prop :=
  (nth_error e 0 = Some (PStr "uniform") /\ length e = 3%nat) \/
  (nth_error e 0 = Some (PStr "gaussian") /\ length e = 4%nat).

(** [{"k": ["gaussian", 0, 1, t]}] *)
Definition gaussian_with_threshold (t : R) : prior_dict :=
  <["k" := [PStr "gaussian"; PNum (Finite 0); PNum (Finite 1); PNum (Finite t)]]> ∅.

(** [{"k": ["uniform", 1, 0]}]: the bounds are in the wrong order. *)
Definition uniform_inverted : prior_dict :=
  <["k" := [PStr "uniform"; PNum (Finite 1); PNum (Finite 0)]]> ∅.

(** The message of the warning of [gaussian_prior]. *)
Definition prob_warning : string :=
  "Probability greater than 1 while checking Gaussian prior! Something is wrong...".

(** [StochasticInference.__init__] and
    [DeterministicInference.__init__]: [super().__init__(...)]. *)
Definition StochasticInference_init {B} (params_to_estimate0 : list string)
    (M0 : Model B) (prior0 : option prior_dict) : Py B unit :=
  PIDInterface_init B params_to_estimate0 M0 prior0.

Definition DeterministicInference_init {B} (params_to_estimate0 : list string)
    (M0 : Model B) (prior0 : option prior_dict) : Py B unit :=
  PIDInterface_init B params_to_estimate0 M0 prior0.

(** The interface [(["k3"], M, uniform_01_extra)]: the entry of [k3] is
    [["gaussian"]]. *)
Definition short_gaussian_state : state example_backend :=
  fresh example_backend tt 0%nat ["k3"] uniform_01_extra.

(** A zero-dimensional array. *)
Definition scalar_data : ndarray := mk_ndarray [] [Finite 1].



(** A back end that keeps, as the state of the model, the parameters
    last bound onto it ([None] before any binding); no other call changes
    that state. *)
Definition recording_backend : Backend := {|
  scalar_kind := NpFloat64;
  Model := unit;
  World := option params_dict;
  DataObj := nat;
  Engine := unit;
  StochasticTrajectories := fun _ _ _ N w => (Ok N, w);
  BulkData := fun _ _ _ N w => (Ok N, w);
  STLL := fun _ _ _ _ _ w => (Ok tt, w);
  DLL := fun _ _ _ _ w => (Ok tt, w);
  truthy := fun _ => true;
  set_init_params := fun _ params _ => (Ok tt, Some params);
  py_log_likelihood := fun _ w => (Ok (Finite (- (16 / 5))), w)
|}.

(** The interface [(["k1", "k2"], M, uniform_01)] over it, nothing being
    bound yet. *)
Definition recording_state : state recording_backend :=
  fresh recording_backend tt None ["k1"; "k2"] uniform_01.




(** [example_state] after other activity: the external world has moved
    on and the log holds a warning and a print. *)
Definition busy_state : state example_backend :=
  mk_state (self example_state) 7%nat
    [Warn prob_warning; Print "The N is {0}" (PrInt 5)].

(** The state [st] with the events [evs] appended to its log. *)
Definition appended {B} (st : state B) (evs : list (event B)) : state B :=
  mk_state (self st) (world st) (log st ++ evs).

(** The warnings: those of this module and numpy's. *)
Definition is_warning {B} (e : event B) : Prop :=
  match e with
  | Warn _ | RuntimeWarn _ _ => True
  | _ => False
  end.

(** A computation that reads nothing of the state and only appends
    warnings to the log; [P] holds of its result. *)
Definition pure_with {B A} (P : result A -> Prop) (m : Py B A) : Prop :=
  exists r evs, Forall is_warning evs /\ P r /\
                forall st, m st = (r, appended st evs).

(** The results of [gaussian_prior] on the entry [e]. *)
Definition gaussian_result (e : list pyval) (r : result num) : Prop :=
  match r with
  | Ok c => prior_value c /\ length e = 4%nat
  | Raise x =>
      x = IndexError \/ x = TypeError \/ x = OverflowError \/
      x = ZeroDivisionError \/
      x = ValueError "For Gaussian distribution, the dictionary entry must be : [prior_type, mean, std_dev, probability_threshold]"
  end.

(** No operation of the expression of [prob] leaves the range of a
    double on the finite arguments [v], [mu], [sigma]. *)
Definition gaussian_in_range (v mu sigma : R) : Prop :=
  let x1 := sqrt (2 * PI) * sigma in
  let x2 := 1 / x1 in
  let x3 := - (1 / 2) * v in
  let x4 := x3 + - mu in
  let x5 := x4 * x4 in
  let x6 := sigma * sigma in
  let x7 := x5 / x6 in
  let x8 := exp x7 in
  in_range x1 /\ in_range x2 /\ in_range x3 /\ in_range x4 /\ in_range x5 /\
  in_range x6 /\ in_range x7 /\ in_range x8 /\ in_range (x2 * x8).

(** A float that is [+inf] or a finite number not below [b]. *)
Definition at_least (b : R) (a : num) : Prop :=
  a = PInf \/ exists x, a = Finite x /\ b <= x.

(** ** Scalars: comparison and arithmetic facts *)

Lemma Rltb_true (a b : R) : a < b -> Rltb a b = true.
Proof. intros H. unfold Rltb. destruct (Rlt_dec a b); [reflexivity | contradiction]. Qed.

Lemma Rltb_false (a b : R) : b <= a -> Rltb a b = false.
Proof. intros H. unfold Rltb. destruct (Rlt_dec a b); [lra | reflexivity]. Qed.

Lemma Reqb_false (a b : R) : a <> b -> Reqb a b = false.
Proof. intros H. unfold Reqb. destruct (Req_dec_T a b); [contradiction | reflexivity]. Qed.

Lemma num_le_not_lt (a b : num) : num_le a b = true -> num_lt b a = false.
Proof.
  destruct a, b; simpl; try discriminate; try reflexivity;
    intros H; apply negb_true_iff in H; exact H.
Qed.

Lemma num_add_0_l (a : num) : num_add (Finite 0) a = a.
Proof. destruct a; simpl; try reflexivity. f_equal. lra. Qed.

(** *** Operations within the range of a double *)

Lemma float_max_large : 1000 <= float_max.
Proof. unfold float_max. apply IZR_le. by vm_compute. Qed.

Lemma in_range_small (x : R) : -1000 <= x <= 1000 -> in_range x.
Proof.
  intros [Hl Hu]. pose proof float_max_large. unfold in_range.
  apply Rabs_le. lra.
Qed.

Lemma num_mul_finite (x y : R) : num_mul (Finite x) (Finite y) = Finite (x * y).
Proof. reflexivity. Qed.

Lemma num_sq_finite (x : R) : num_sq (Finite x) = Finite (x * x).
Proof. reflexivity. Qed.

Lemma num_sub_finite (x y : R) : num_sub (Finite x) (Finite y) = Finite (x + - y).
Proof. reflexivity. Qed.

Lemma num_exp_finite (x : R) : num_exp (Finite x) = Finite (exp x).
Proof. reflexivity. Qed.

Lemma num_div_finite (x y : R) :
  y <> 0 -> num_div (Finite x) (Finite y) = Finite (x / y).
Proof. intros Hy. unfold num_div. by rewrite Reqb_false. Qed.

Lemma np_outcome_in_range args (x : R) :
  in_range x -> np_outcome args (Finite x) = (Finite x, None).
Proof. intros H. unfold np_outcome. by rewrite Rltb_false. Qed.

Lemma float_tiny_pos : 0 < float_tiny.
Proof.
  unfold float_tiny. apply Rinv_0_lt_compat, IZR_lt. by vm_compute.
Qed.

Lemma float_tiny_small : float_tiny <= 1.
Proof.
  unfold float_tiny. rewrite <- Rinv_1. apply Rinv_le_contravar; [lra|].
  apply IZR_le. by vm_compute.
Qed.

Lemma float_of_in_range (x : R) : in_range x -> float_of (Finite x) = Finite x.
Proof. intros H. unfold float_of. by rewrite Rltb_false. Qed.

(** The result of a numpy operation is the float of the exact result. *)
Lemma np_outcome_value args (r : num) : (np_outcome args r).1 = float_of r.
Proof.
  destruct r as [x| | |]; simpl; try reflexivity.
  by destruct (Rltb float_max (Rabs x)).
Qed.

Lemma float_of_finite (r : num) (y : R) :
  float_of r = Finite y -> r = Finite y /\ in_range y.
Proof.
  destruct r as [x| | |]; simpl; try discriminate.
  unfold in_range. destruct (Rlt_dec float_max (Rabs x)) as [H|H].
  - rewrite (Rltb_true _ _ H). by destruct (Rltb 0 x).
  - rewrite Rltb_false by lra. intros [= <-]. split; [reflexivity | lra].
Qed.

Lemma num_sub_finite_inv (a b : num) (y : R) :
  num_sub a b = Finite y -> exists x m, a = Finite x /\ b = Finite m /\ y = x + - m.
Proof. destruct a, b; simpl; try discriminate. intros [= <-]. eauto. Qed.

Lemma num_mul_finite_inv (c : R) (b : num) (y : R) :
  num_mul (Finite c) b = Finite y -> exists x, b = Finite x /\ y = c * x.
Proof.
  destruct b as [x| | |]; simpl; try discriminate.
  - intros [= <-]. eauto.
  - unfold inf_signed. repeat case_match; discriminate.
  - unfold inf_signed. repeat case_match; discriminate.
Qed.

(** The number that [gaussian_prior] squares, as a float: when the
    square of the exact number is within the range, so is the square of
    the float. *)
Lemma shifted_float_square (v mu : num) :
  square_in_range (shifted v mu) ->
  square_in_range
    (float_of (num_sub (float_of (num_mul (Finite (- (1 / 2))) v)) mu)).
Proof.
  intros H. unfold square_in_range at 1.
  destruct (float_of _) as [y| | |] eqn:Ht4; try done.
  apply float_of_finite in Ht4 as [Ht4 _].
  apply num_sub_finite_inv in Ht4 as (x & m & Ht3 & -> & ->).
  apply float_of_finite in Ht3 as [Ht3 _].
  apply num_mul_finite_inv in Ht3 as (x0 & -> & ->).
  exact H.
Qed.

Lemma square_is_divisor_nonzero (s : R) :
  float_tiny <= s * s <= float_max -> s * s <> 0 /\ in_range (s * s).
Proof.
  intros [Hl Hu]. pose proof float_tiny_pos. split; [lra|].
  unfold in_range. rewrite Rabs_pos_eq; lra.
Qed.


(** ** Running the monad *)

Ltac unfold_py :=
  unfold mbind, mret, Py_bind, Py_ret, bind, ret, raise, attr, emit, warn,
    print, backend, index, operand in *.

#[local] Arguments num_lt : simpl never.
#[local] Arguments num_gt : simpl never.
#[local] Arguments num_le : simpl never.
#[local] Arguments num_add : simpl never.
#[local] Arguments named_params : simpl never.
#[local] Arguments numpy : simpl never.
#[local] Arguments np_outcome : simpl never.
#[local] Arguments py_float_sq : simpl never.
#[local] Arguments py_float : simpl never.
#[local] Arguments py_float_div : simpl never.
#[local] Arguments scalar_multiply : simpl never.
#[local] Arguments scalar_subtract : simpl never.
#[local] Arguments scalar_square : simpl never.
#[local] Arguments scalar_divide : simpl never.
#[local] Arguments float_of : simpl never.
#[local] Arguments gaussian_prob : simpl never.
#[local] Arguments gaussian_entry : simpl never.
#[local] Arguments num_mul : simpl never.
#[local] Arguments num_div : simpl never.
#[local] Arguments num_sub : simpl never.
#[local] Arguments num_sq : simpl never.
#[local] Arguments num_exp : simpl never.

Ltac py_simpl := repeat progress (unfold_py; simpl in * ).

Ltac py_cases :=
  repeat (unfold_py; simpl in *; simplify_eq; try case_match).

Section Priors.

Context {B : Backend}.
Implicit Types (st : state B) (p : prior_dict) (v lp : num) (key : string).

Lemma frame_refl st : frame st st.
Proof. by unfold frame. Qed.

Lemma frame_trans st1 st2 st3 : frame st1 st2 -> frame st2 st3 -> frame st1 st3.
Proof. unfold frame. intros (?&?&?) (?&?&?). split_and!; congruence. Qed.

Lemma calls_app (l l' : list (event B)) : calls (l ++ l') = calls l ++ calls l'.
Proof. unfold calls. apply omap_app. Qed.

Lemma frame_warn st msg :
  frame st (mk_state (self st) (world st) (log st ++ [Warn msg])).
Proof. unfold frame; simpl. rewrite calls_app; simpl. by rewrite app_nil_r. Qed.

Lemma prior_getitem_run key st :
  prior_getitem key st =
    (match prior (self st) with
     | None => Raise TypeError
     | Some d => match d !! key with
                 | Some e => Ok e
                 | None => Raise (KeyError key)
                 end
     end, st).
Proof.
  unfold prior_getitem. unfold_py.
  destruct (prior (self st)) as [d|]; [|reflexivity].
  destruct (d !! key); reflexivity.
Qed.

(** [uniform_prior] has no effect at all. *)
Lemma uniform_prior_pure key v st : snd (uniform_prior key v st) = st.
Proof.
  unfold uniform_prior. unfold_py. simpl.
  destruct (prior (self st)) as [d|] eqn:Hp; [|reflexivity].
  rewrite prior_getitem_run, Hp.
  py_cases; reflexivity.
Qed.

(** The value of [uniform_prior] on an entry of three elements with
    numeric bounds. *)
Lemma uniform_prior_run key v st p tag lo hi :
  prior (self st) = Some p ->
  p !! key = Some [tag; PNum lo; PNum hi] ->
  uniform_prior key v st =
    (Ok (if num_gt v hi || num_lt v lo then PInf else Finite 0), st).
Proof.
  intros Hp Hk. unfold uniform_prior. unfold_py. simpl.
  rewrite Hp, prior_getitem_run, Hp, Hk. simpl.
  destruct (num_gt v hi); simpl; [reflexivity|].
  destruct (num_lt v lo); reflexivity.
Qed.

Lemma uniform_prior_values key v st c :
  fst (uniform_prior key v st) = Ok c -> c = Finite 0 \/ c = PInf.
Proof.
  unfold uniform_prior. unfold_py. simpl.
  destruct (prior (self st)) as [d|] eqn:Hp; [|discriminate].
  rewrite prior_getitem_run, Hp.
  py_cases; intros; simplify_eq; auto.
Qed.

(** *** Computations that only warn *)

Lemma appended_nil st : appended st [] = st.
Proof. destruct st. unfold appended. simpl. by rewrite app_nil_r. Qed.

Lemma appended_app st (l l' : list (event B)) :
  appended (appended st l) l' = appended st (l ++ l').
Proof. unfold appended. simpl. by rewrite app_assoc. Qed.

Lemma calls_warnings (evs : list (event B)) :
  Forall is_warning evs -> calls evs = [].
Proof.
  induction 1 as [|e evs He _ IH]; [reflexivity|].
  destruct e; simpl in *; done.
Qed.

Lemma frame_appended st (evs : list (event B)) :
  Forall is_warning evs -> frame st (appended st evs).
Proof.
  intros H. unfold frame, appended. simpl.
  by rewrite calls_app, (calls_warnings evs H), app_nil_r.
Qed.

Lemma pure_ret {A} (P : result A -> Prop) (a : A) :
  P (Ok a) -> pure_with (B:=B) P (mret a).
Proof.
  intros H. exists (Ok a), []. split_and!; [constructor | exact H |].
  intros st. by rewrite appended_nil.
Qed.

Lemma pure_raise {A} (P : result A -> Prop) (e : exn) :
  P (Raise e) -> pure_with (B:=B) P (raise e).
Proof.
  intros H. exists (Raise e), []. split_and!; [constructor | exact H |].
  intros st. by rewrite appended_nil.
Qed.

Lemma pure_bind {A C} (Q : result A -> Prop) (P : result C -> Prop)
    (m : Py B A) (k : A -> Py B C) :
  pure_with Q m ->
  (forall a, Q (Ok a) -> pure_with P (k a)) ->
  (forall e, Q (Raise e) -> P (Raise e)) ->
  pure_with P (m ≫= k).
Proof.
  intros (r & evs & Hevs & HQ & Hm) Hk He.
  destruct r as [a|e].
  - destruct (Hk a HQ) as (r' & evs' & Hevs' & HP & Hka).
    exists r', (evs ++ evs'). split_and!; [by apply Forall_app | exact HP |].
    intros st. unfold_py. rewrite Hm, Hka. by rewrite appended_app.
  - exists (Raise e), evs. split_and!; [exact Hevs | by apply He |].
    intros st. unfold_py. by rewrite Hm.
Qed.

Lemma pure_weaken {A} (P Q : result A -> Prop) (m : Py B A) :
  (forall r, P r -> Q r) -> pure_with P m -> pure_with Q m.
Proof. intros H (r & evs & ? & ? & ?). exists r, evs. auto. Qed.

Lemma pure_warn msg : pure_with (B:=B) (fun r => r = Ok tt) (warn msg).
Proof.
  exists (Ok tt), [Warn msg]. split_and!; [by repeat constructor | done | done].
Qed.

Lemma pure_index {A} (l : list A) i :
  pure_with (B:=B)
    (fun r => r = match nth_error l i with
                  | Some a => Ok a
                  | None => Raise IndexError
                  end) (index l i).
Proof.
  unfold index. destruct (nth_error l i); [by apply pure_ret | by apply pure_raise].
Qed.

Lemma pure_operand (v : pyval) :
  pure_with (B:=B)
    (fun r => r = match v with PNum x => Ok x | PStr _ => Raise TypeError end)
    (operand v).
Proof. destruct v; [by apply pure_raise | by apply pure_ret]. Qed.

(** A numpy operation returns the value of [np_outcome] and never
    raises. *)
Lemma pure_numpy op args exact :
  pure_with (B:=B) (fun r => r = Ok (np_outcome args exact).1)
    (numpy op args exact).
Proof.
  unfold numpy. destruct (np_outcome args exact) as [r [err|]]; simpl.
  - exists (Ok r), [RuntimeWarn err op].
    split_and!; [by repeat constructor | done | done].
  - by apply pure_ret.
Qed.

Lemma pure_py_float_sq x :
  pure_with (B:=B)
    (fun r => r = match num_sq x with
                  | Finite y =>
                      if Rltb float_max (Rabs y) then Raise OverflowError
                      else Ok (Finite y)
                  | r' => Ok r'
                  end) (py_float_sq x).
Proof.
  unfold py_float_sq. destruct (num_sq x) as [y| | |]; try by apply pure_ret.
  destruct (Rltb float_max (Rabs y)); [by apply pure_raise | by apply pure_ret].
Qed.

Lemma pure_py_float exact :
  pure_with (B:=B) (fun r => r = Ok (float_of exact)) (py_float exact).
Proof. by apply pure_ret. Qed.

Lemma pure_py_float_div x y :
  pure_with (B:=B)
    (fun r => r = if is_zero y then Raise ZeroDivisionError
                  else Ok (float_of (num_div x y)))
    (py_float_div x y).
Proof.
  unfold py_float_div. destruct (is_zero y);
    [by apply pure_raise | by apply pure_ret].
Qed.

(** The operators on [param_value]: of either type they give the float
    of the exact result, but for the two exceptions of Python. *)
Lemma pure_scalar_multiply a b :
  pure_with (B:=B) (fun r => r = Ok (float_of (num_mul a b)))
    (scalar_multiply a b).
Proof.
  unfold scalar_multiply, np_multiply. destruct (scalar_kind B).
  - apply pure_py_float.
  - eapply pure_weaken; [|apply pure_numpy].
    intros r ->. by rewrite np_outcome_value.
Qed.

Lemma pure_scalar_subtract a b :
  pure_with (B:=B) (fun r => r = Ok (float_of (num_sub a b)))
    (scalar_subtract a b).
Proof.
  unfold scalar_subtract, np_subtract. destruct (scalar_kind B).
  - apply pure_py_float.
  - eapply pure_weaken; [|apply pure_numpy].
    intros r ->. by rewrite np_outcome_value.
Qed.

Lemma py_float_sq_value x :
  match num_sq x with
  | Finite y =>
      if Rltb float_max (Rabs y) then Raise OverflowError else Ok (Finite y)
  | r' => Ok r'
  end = Ok (float_of (num_sq x)) \/
  (~ square_in_range x /\
   match num_sq x with
   | Finite y =>
       if Rltb float_max (Rabs y) then Raise OverflowError else Ok (Finite y)
   | r' => Ok r'
   end = Raise OverflowError).
Proof.
  unfold square_in_range, in_range.
  destruct (num_sq x) as [y| | |]; simpl; auto.
  destruct (Rlt_dec float_max (Rabs y)) as [H|H].
  - rewrite (Rltb_true _ _ H). right. split; [lra | reflexivity].
  - rewrite Rltb_false by lra. left.
    rewrite float_of_in_range; [reflexivity | unfold in_range; lra].
Qed.

Lemma pure_scalar_square a :
  pure_with (B:=B)
    (fun r => r = Ok (float_of (num_sq a)) \/
              (~ square_in_range a /\ r = Raise OverflowError))
    (scalar_square a).
Proof.
  unfold scalar_square, np_square. destruct (scalar_kind B).
  - eapply pure_weaken; [|apply pure_py_float_sq].
    intros r ->. apply py_float_sq_value.
  - eapply pure_weaken; [|apply pure_numpy].
    intros r ->. left. by rewrite np_outcome_value.
Qed.

Lemma pure_scalar_divide a b :
  pure_with (B:=B)
    (fun r => r = Ok (float_of (num_div a b)) \/
              (is_zero b = true /\ r = Raise ZeroDivisionError))
    (scalar_divide a b).
Proof.
  unfold scalar_divide, np_divide. destruct (scalar_kind B).
  - eapply pure_weaken; [|apply pure_py_float_div].
    intros r ->. destruct (is_zero b); auto.
  - eapply pure_weaken; [|apply pure_numpy].
    intros r ->. left. by rewrite np_outcome_value.
Qed.

(** [gaussian_prob] raises nothing but [TypeError], [OverflowError] and
    [ZeroDivisionError]. *)
Lemma gaussian_prob_pure v mu sigma :
  pure_with (B:=B)
    (fun r => forall x, r = Raise x ->
       x = TypeError \/ x = OverflowError \/ x = ZeroDivisionError)
    (gaussian_prob v mu sigma).
Proof.
  unfold gaussian_prob, np_multiply, np_divide, np_exp.
  eapply pure_bind; [apply pure_operand | intros s _ | ].
  2:{ intros e He x [= <-]. destruct sigma; simplify_eq. by left. }
  eapply pure_bind; [apply pure_numpy | intros t1 _ | intros e He; discriminate].
  eapply pure_bind; [apply pure_numpy | intros t2 _ | intros e He; discriminate].
  eapply pure_bind; [apply pure_scalar_multiply | intros t3 _
                    | intros e He; discriminate].
  eapply pure_bind; [apply pure_operand | intros m _ | ].
  2:{ intros e He x [= <-]. destruct mu; simplify_eq. by left. }
  eapply pure_bind; [apply pure_scalar_subtract | intros t4 _
                    | intros e He; discriminate].
  eapply pure_bind; [apply pure_scalar_square | intros t5 _ | ].
  2:{ intros e [He|[_ He]] x [= <-]; simplify_eq. auto. }
  eapply pure_bind; [apply pure_py_float_sq | intros t6 _ | ].
  2:{ intros e He x [= <-]. right. left.
      destruct (num_sq s) as [y| | |]; simplify_eq.
      destruct (Rltb float_max (Rabs y)); by simplify_eq. }
  eapply pure_bind; [apply pure_scalar_divide | intros t7 _ | ].
  2:{ intros e [He|[_ He]] x [= <-]; simplify_eq. auto. }
  eapply pure_bind; [apply pure_numpy | intros t8 _ | intros e He; discriminate].
  eapply pure_weaken; [|apply pure_numpy]. intros r -> x. discriminate.
Qed.

Lemma gaussian_entry_pure e v :
  pure_with (B:=B) (gaussian_result e) (gaussian_entry e v).
Proof.
  unfold gaussian_entry.
  destruct (Nat.eqb_spec (length e) 4) as [Hlen|Hlen]; simpl;
    [|apply pure_raise; simpl; auto].
  eapply pure_bind; [apply pure_index | intros mu _ | ].
  2:{ intros x Hx. destruct (nth_error e 1); simplify_eq. simpl. auto. }
  eapply pure_bind; [apply pure_index | intros sigma _ | ].
  2:{ intros x Hx. destruct (nth_error e 2); simplify_eq. simpl. auto. }
  eapply pure_bind; [apply pure_index | intros thr _ | ].
  2:{ intros x Hx. destruct (nth_error e 3); simplify_eq. simpl. auto. }
  eapply pure_bind; [apply gaussian_prob_pure | intros prob _ | ].
  2:{ intros x Hx. simpl. destruct (Hx x eq_refl) as [->|[->| ->]]; auto 6. }
  eapply (pure_bind (fun r => r = Ok tt)); [ | intros [] _ | intros x Hx; discriminate].
  { destruct (num_gt prob (Finite 1)); [apply pure_warn | by apply pure_ret]. }
  eapply pure_bind; [apply pure_operand | intros t _ | ].
  2:{ intros x Hx. destruct thr; simplify_eq. simpl. auto. }
  destruct (num_lt prob t); apply pure_ret; simpl; split; try done;
    [by right | by left].
Qed.

Lemma gaussian_prior_unfold key v st :
  gaussian_prior key v st =
    match prior (self st) with
    | None => (Raise (ValueError "No prior found"), st)
    | Some p =>
        match p !! key with
        | Some e => gaussian_entry e v st
        | None => (Raise (KeyError key), st)
        end
    end.
Proof.
  unfold gaussian_prior. py_simpl.
  destruct (prior (self st)) as [p|] eqn:Hp; [|reflexivity].
  rewrite prior_getitem_run, Hp. by destruct (p !! key).
Qed.

Lemma gaussian_entry_numeric tag mu sigma thr v st :
  gaussian_entry [tag; PNum mu; PNum sigma; PNum thr] v st =
    (prob ← gaussian_prob v (PNum mu) (PNum sigma);
     (if num_gt prob (Finite 1) then
        warn "Probability greater than 1 while checking Gaussian prior! Something is wrong..."
      else mret tt);;
     if num_lt prob thr then mret PInf else mret (Finite 0)) st.
Proof.
  unfold gaussian_entry. py_simpl.
  destruct (gaussian_prob v (PNum mu) (PNum sigma) st) as [[prob|e] st1];
    [|reflexivity].
  destruct (num_gt prob (Finite 1)); reflexivity.
Qed.

(** With numeric operands, a standard deviation whose square is a float
    to divide by, and a value whose shifted square is within the range,
    [gaussian_prob] returns. *)
Lemma gaussian_prob_returns v mu sigma :
  square_is_divisor sigma ->
  square_in_range (shifted v mu) ->
  pure_with (B:=B) (fun r => exists x, r = Ok x)
    (gaussian_prob v (PNum mu) (PNum sigma)).
Proof.
  intros Hsq Hv.
  unfold gaussian_prob, np_multiply, np_divide, np_exp.
  eapply pure_bind; [apply pure_operand | intros s [= ->] | intros e He; discriminate].
  eapply pure_bind; [apply pure_numpy | intros t1 _ | intros e He; discriminate].
  eapply pure_bind; [apply pure_numpy | intros t2 _ | intros e He; discriminate].
  eapply pure_bind; [apply pure_scalar_multiply | intros t3 [= ->]
                    | intros e He; discriminate].
  eapply pure_bind; [apply pure_operand | intros m [= ->] | intros e He; discriminate].
  eapply pure_bind; [apply pure_scalar_subtract | intros t4 [= ->]
                    | intros e He; discriminate].
  eapply pure_bind; [apply pure_scalar_square | intros t5 _ | ].
  2:{ intros e [He|[He _]]; [discriminate|]. exfalso. apply He.
      by apply shifted_float_square. }
  eapply (pure_bind (fun r => exists t6, r = Ok t6 /\ is_zero t6 = false));
    [eapply pure_weaken; [|apply pure_py_float_sq] | intros t6 (? & [= <-] & Hz)
    | intros e (? & ? & _); discriminate].
  { intros r ->. destruct sigma as [y| | |]; simpl in *; eauto.
    destruct (square_is_divisor_nonzero y Hsq) as [Hnz Hin].
    rewrite ?num_sq_finite. unfold in_range in Hin.
    rewrite Rltb_false by exact Hin. eexists. split; [reflexivity|].
    simpl. by apply Reqb_false. }
  eapply pure_bind; [apply pure_scalar_divide | intros t7 _ | ].
  2:{ intros e [He|[He _]]; [discriminate | congruence]. }
  eapply pure_bind; [apply pure_numpy | intros t8 _ | intros e He; discriminate].
  eapply pure_weaken; [|apply pure_numpy]. intros r ->. eauto.
Qed.

Lemma gaussian_prior_returns key v st p tag mu sigma thr :
  prior (self st) = Some p ->
  p !! key = Some [tag; PNum mu; PNum sigma; PNum thr] ->
  square_is_divisor sigma ->
  square_in_range (shifted v mu) ->
  exists c, fst (gaussian_prior key v st) = Ok c.
Proof.
  intros Hp Hk Hsq Hv. rewrite gaussian_prior_unfold, Hp, Hk.
  rewrite gaussian_entry_numeric. py_simpl.
  destruct (gaussian_prob_returns v mu sigma Hsq Hv)
    as (r & evs & _ & (prob & ->) & ->).
  destruct (num_gt prob (Finite 1)); py_simpl;
    destruct (num_lt prob thr); simpl; eauto.
Qed.

(** [gaussian_prior] may warn and does nothing else. *)
Lemma gaussian_prior_frame key v st : frame st (snd (gaussian_prior key v st)).
Proof.
  rewrite gaussian_prior_unfold.
  destruct (prior (self st)) as [p|]; [|apply frame_refl].
  destruct (p !! key) as [e|]; [|apply frame_refl].
  destruct (gaussian_entry_pure e v) as (r & evs & Hevs & _ & ->).
  by apply frame_appended.
Qed.

Lemma gaussian_prior_values key v st c :
  fst (gaussian_prior key v st) = Ok c -> c = Finite 0 \/ c = PInf.
Proof.
  rewrite gaussian_prior_unfold.
  destruct (prior (self st)) as [p|]; [|discriminate].
  destruct (p !! key) as [e|]; [|discriminate].
  destruct (gaussian_entry_pure e v) as (r & evs & _ & Hr & ->). simpl.
  intros ->. apply Hr.
Qed.

Lemma check_prior_step_frame lp key v st :
  frame st (snd (check_prior_step lp key v st)).
Proof.
  unfold check_prior_step. unfold_py. rewrite prior_getitem_run.
  destruct (prior (self st)) as [d|]; [|apply frame_refl].
  destruct (d !! key) as [entry|]; [|apply frame_refl].
  destruct (nth_error entry 0) as [prior_type|]; py_simpl; [|apply frame_refl].
  destruct (tag_is prior_type "uniform").
  - pose proof (uniform_prior_pure key v st) as Hu.
    destruct (uniform_prior key v st) as [[c|e] st']; simpl in *; subst;
      apply frame_refl.
  - destruct (tag_is prior_type "gaussian"); [|apply frame_refl].
    pose proof (gaussian_prior_frame key v st) as Hg.
    destruct (gaussian_prior key v st) as [[c|e] st']; exact Hg.
Qed.

Lemma check_prior_loop_frame items : forall lp st,
  frame st (snd (check_prior_loop lp items st)).
Proof.
  induction items as [|[key value] rest IH]; intros lp st; simpl.
  - apply frame_refl.
  - unfold_py.
    pose proof (check_prior_step_frame lp key value st) as Hs.
    destruct (check_prior_step lp key value st) as [[lp'|e] st']; simpl in *.
    + eapply frame_trans; [exact Hs | apply IH].
    + exact Hs.
Qed.

Lemma check_prior_frame d st : frame st (snd (check_prior d st)).
Proof. apply check_prior_loop_frame. Qed.

(** *** Sums of prior values *)

Lemma num_add_prior_value a c :
  prior_value a -> prior_value c -> prior_value (num_add a c).
Proof.
  unfold prior_value, num_add.
  intros [->| ->] [->| ->]; auto. left. f_equal. lra.
Qed.

Lemma num_add_PInf_l c : prior_value c -> num_add PInf c = PInf.
Proof. intros [->| ->]; reflexivity. Qed.

Lemma fold_add_PInf cs :
  Forall prior_value cs -> fold_left num_add cs PInf = PInf.
Proof.
  induction 1 as [|c cs Hc _ IH]; simpl; [reflexivity|].
  by rewrite num_add_PInf_l.
Qed.

Lemma fold_add_prior_values cs :
  Forall prior_value cs ->
  (In PInf cs -> fold_left num_add cs (Finite 0) = PInf) /\
  (~ In PInf cs -> fold_left num_add cs (Finite 0) = Finite 0).
Proof.
  induction 1 as [|c cs Hc Hcs IH]; simpl.
  - split; [intros [] | reflexivity].
  - destruct Hc as [->| ->].
    + rewrite num_add_0_l. split.
      * intros [?|?]; [discriminate | by apply IH].
      * intros Hn. apply IH. tauto.
    + unfold num_add at 2; simpl. rewrite fold_add_PInf by assumption.
      split; [reflexivity | tauto].
Qed.

Lemma fold_add_NInf cs :
  Forall neg_inf_or_finite cs -> fold_left num_add cs NInf = NInf.
Proof.
  induction 1 as [|c cs Hc _ IH]; simpl; [reflexivity|].
  destruct Hc as [->|Hc]; [exact IH|].
  destruct c; try discriminate. exact IH.
Qed.

(** A sum from a finite start that holds a [-inf] and otherwise finite
    terms is [-inf]. *)
Lemma fold_add_neg_inf cs : forall (x : R),
  Forall neg_inf_or_finite cs -> In NInf cs ->
  fold_left num_add cs (Finite x) = NInf.
Proof.
  induction cs as [|c cs IH]; intros x Hcs Hin; [destruct Hin|].
  inversion Hcs as [|? ? Hc Hcs']; subst. simpl.
  destruct Hc as [->|Hc]; [by apply fold_add_NInf|].
  destruct c as [y| | |]; try discriminate.
  destruct Hin as [?|Hin]; [discriminate|].
  by apply IH.
Qed.

(** *** [check_prior] accumulates the contributions *)

Lemma check_prior_step_contribution lp key v st :
  check_prior_step lp key v st =
    (c ← contribution key v; mret (num_add lp c)) st.
Proof.
  unfold check_prior_step, contribution. py_simpl.
  rewrite prior_getitem_run.
  destruct (prior (self st)) as [d|]; [|reflexivity].
  destruct (d !! key) as [entry|]; [|reflexivity].
  destruct entry as [|prior_type entry]; py_simpl; [reflexivity|].
  destruct (tag_is prior_type "uniform"); [reflexivity|].
  destruct (tag_is prior_type "gaussian"); reflexivity.
Qed.

Lemma contribution_frame key v st : frame st (snd (contribution key v st)).
Proof.
  pose proof (check_prior_step_frame (Finite 0) key v st) as H.
  rewrite check_prior_step_contribution in H. py_simpl.
  destruct (contribution key v st) as [[c|e] st']; exact H.
Qed.

Lemma contribution_values key v st c :
  fst (contribution key v st) = Ok c -> prior_value c.
Proof.
  unfold contribution. py_simpl. rewrite prior_getitem_run.
  destruct (prior (self st)) as [d|]; [|discriminate].
  destruct (d !! key) as [entry|]; [|discriminate].
  destruct entry as [|prior_type entry]; py_simpl; [discriminate|].
  destruct (tag_is prior_type "uniform"); [apply uniform_prior_values|].
  destruct (tag_is prior_type "gaussian"); [apply gaussian_prior_values|].
  discriminate.
Qed.

(** Every value that [check_prior] returns is [0.0] or [inf]. *)
Lemma check_prior_loop_values items : forall lp st lp',
  prior_value lp ->
  fst (check_prior_loop lp items st) = Ok lp' -> prior_value lp'.
Proof.
  induction items as [|[key value] rest IH]; intros lp st lp' Hlp; simpl.
  - py_simpl. congruence.
  - py_simpl. rewrite check_prior_step_contribution. py_simpl.
    pose proof (contribution_values key value st) as Hc.
    destruct (contribution key value st) as [[c|e] st']; simpl in *;
      [|discriminate].
    apply IH. apply num_add_prior_value; auto.
Qed.

Lemma check_prior_values d st lp :
  fst (check_prior d st) = Ok lp -> prior_value lp.
Proof. apply check_prior_loop_values. by left. Qed.

(** A finite log-prior is [0.0]. *)
Lemma check_prior_finite d st lp :
  fst (check_prior d st) = Ok lp -> isfinite lp = true -> lp = Finite 0.
Proof.
  intros H Hf. apply check_prior_values in H as [->| ->]; [reflexivity|discriminate].
Qed.

(** *** Only the entry under the parameter's name is read *)

Lemma uniform_prior_agree st1 st2 p1 p2 key v :
  prior (self st1) = Some p1 -> prior (self st2) = Some p2 ->
  p1 !! key = p2 !! key ->
  fst (uniform_prior key v st1) = fst (uniform_prior key v st2).
Proof.
  intros Hp1 Hp2 Hk. unfold uniform_prior. py_simpl.
  rewrite Hp1, Hp2, !prior_getitem_run, Hp1, Hp2, Hk.
  py_cases; reflexivity.
Qed.

Lemma gaussian_prior_agree st1 st2 p1 p2 key v :
  prior (self st1) = Some p1 -> prior (self st2) = Some p2 ->
  p1 !! key = p2 !! key ->
  fst (gaussian_prior key v st1) = fst (gaussian_prior key v st2) /\
  (log st1 = log st2 ->
   log (snd (gaussian_prior key v st1)) = log (snd (gaussian_prior key v st2))).
Proof.
  intros Hp1 Hp2 Hk. rewrite !gaussian_prior_unfold, Hp1, Hp2, Hk.
  destruct (p2 !! key) as [e|]; [|by split].
  destruct (gaussian_entry_pure e v) as (r & evs & _ & _ & Hrun).
  rewrite !Hrun. simpl. split; [reflexivity | by intros ->].
Qed.

Lemma contribution_agree st1 st2 p1 p2 key v :
  prior (self st1) = Some p1 -> prior (self st2) = Some p2 ->
  p1 !! key = p2 !! key ->
  fst (contribution key v st1) = fst (contribution key v st2) /\
  (log st1 = log st2 ->
   log (snd (contribution key v st1)) = log (snd (contribution key v st2))).
Proof.
  intros Hp1 Hp2 Hk. unfold contribution. py_simpl.
  rewrite !prior_getitem_run, Hp1, Hp2, Hk.
  destruct (p2 !! key) as [entry|] eqn:Hk2; [|by split].
  assert (Hk' : p1 !! key = p2 !! key) by congruence.
  destruct entry as [|prior_type entry]; py_simpl; [by split|].
  destruct (tag_is prior_type "uniform").
  - pose proof (uniform_prior_agree st1 st2 p1 p2 key v Hp1 Hp2 Hk') as Hr.
    pose proof (uniform_prior_pure key v st1) as Hs1.
    pose proof (uniform_prior_pure key v st2) as Hs2.
    destruct (uniform_prior key v st1) as [r1 s1];
      destruct (uniform_prior key v st2) as [r2 s2]; simpl in *; subst.
    by split.
  - destruct (tag_is prior_type "gaussian"); [|by split].
    by eapply gaussian_prior_agree.
Qed.

Lemma check_prior_loop_agree p1 p2 items : forall lp st1 st2,
  (forall key value, In (key, value) items -> p1 !! key = p2 !! key) ->
  prior (self st1) = Some p1 -> prior (self st2) = Some p2 ->
  log st1 = log st2 ->
  fst (check_prior_loop lp items st1) = fst (check_prior_loop lp items st2) /\
  log (snd (check_prior_loop lp items st1))
    = log (snd (check_prior_loop lp items st2)).
Proof.
  induction items as [|[key value] rest IH]; intros lp st1 st2 Hk Hp1 Hp2 Hl.
  - by split.
  - simpl. py_simpl. rewrite !check_prior_step_contribution. py_simpl.
    destruct (contribution_agree st1 st2 p1 p2 key value) as [Hr Hl'];
      [done | done | apply (Hk key value); by left |].
    specialize (Hl' Hl).
    pose proof (contribution_frame key value st1) as (Hs1 & _).
    pose proof (contribution_frame key value st2) as (Hs2 & _).
    destruct (contribution key value st1) as [[c1|e1] st1'];
      destruct (contribution key value st2) as [[c2|e2] st2'];
      simpl in *; simplify_eq; [|by split].
    apply IH; [| congruence | congruence | done].
    intros k v' Hin. apply (Hk k v'). by right.
Qed.

(** The contribution of a parameter is determined by [self]. *)
Lemma contribution_self st1 st2 key v :
  self st1 = self st2 ->
  fst (contribution key v st1) = fst (contribution key v st2).
Proof.
  intros Hs. destruct (prior (self st1)) as [p|] eqn:Hp.
  - eapply contribution_agree; [exact Hp | by rewrite <- Hs | reflexivity].
  - unfold contribution. py_simpl. rewrite !prior_getitem_run, <- Hs, Hp.
    reflexivity.
Qed.

Lemma contribution_uniform key v st p lo hi :
  prior (self st) = Some p ->
  p !! key = Some [PStr "uniform"; PNum lo; PNum hi] ->
  contribution key v st =
    (Ok (if num_gt v hi || num_lt v lo then PInf else Finite 0), st).
Proof.
  intros Hp Hk. unfold contribution. py_simpl.
  rewrite prior_getitem_run, Hp, Hk. py_simpl.
  by eapply uniform_prior_run.
Qed.

Lemma contribution_gaussian key v st p mu sigma thr :
  prior (self st) = Some p ->
  p !! key = Some [PStr "gaussian"; PNum mu; PNum sigma; PNum thr] ->
  contribution key v st = gaussian_prior key v st.
Proof.
  intros Hp Hk. unfold contribution. py_simpl.
  rewrite prior_getitem_run, Hp, Hk. py_simpl. reflexivity.
Qed.

Lemma contribution_well_formed key v st p e :
  prior (self st) = Some p -> p !! key = Some e -> well_formed_entry e v ->
  exists c, fst (contribution key v st) = Ok c.
Proof.
  intros Hp Hk [(lo & hi & ->) | (mu & sigma & thr & -> & Hsq & Hv)].
  - erewrite contribution_uniform by eassumption. eauto.
  - erewrite contribution_gaussian by eassumption.
    by eapply gaussian_prior_returns.
Qed.

Lemma check_prior_loop_sum p d : forall lp st0 st,
  prior (self st0) = Some p -> self st = self st0 -> well_formed_for p d ->
  exists cs,
    Forall2 (fun kv c => fst (contribution kv.1 kv.2 st0) = Ok c) d cs /\
    fst (check_prior_loop lp d st) = Ok (fold_left num_add cs lp).
Proof.
  induction d as [|[key value] rest IH]; intros lp st0 st Hp Hs Hwf.
  - exists []. split; [constructor | reflexivity].
  - destruct (Hwf key value) as (e & Hk & He); [by left|].
    destruct (contribution_well_formed key value st0 p e Hp Hk He) as [c Hc].
    simpl. py_simpl. rewrite check_prior_step_contribution. py_simpl.
    pose proof (contribution_self st st0 key value Hs) as Hcs.
    pose proof (contribution_frame key value st) as (Hs' & _).
    destruct (contribution key value st) as [r st']. simpl in *.
    rewrite Hcs, Hc.
    destruct (IH (num_add lp c) st0 st') as (cs & Hcs' & Hsum);
      [done | congruence | intros k v' Hin; apply (Hwf k v'); by right |].
    exists (c :: cs). split; [by constructor | exact Hsum].
Qed.

End Priors.

(** ** The uniform prior *)

Ltac num_cmp :=
  unfold num_gt, num_le; unfold num_lt;
  repeat first [rewrite Rltb_true by lra | rewrite Rltb_false by lra]; simpl.

Section UniformPrior.

Context {B : Backend}.

(** C2 (as amended).  For a well-formed uniform entry
    [["uniform", lower, upper]], [uniform_prior] returns [0.0] when
    [lower <= value <= upper], both bounds included, and returns [+inf]
    ([np.inf], not [-inf]) when [value > upper] or [value < lower]; it has
    no effect on the state. *)
Theorem uniform_prior_inside_outside
    (st : state B) (p : prior_dict) (key : string) (lower upper value : num) :
  prior (self st) = Some p ->
  p !! key = Some [PStr "uniform"; PNum lower; PNum upper] ->
  (num_le lower value = true -> num_le value upper = true ->
   uniform_prior key value st = (Ok (Finite 0), st)) /\
  (num_gt value upper = true \/ num_lt value lower = true ->
   uniform_prior key value st = (Ok PInf, st)).
Proof.
  intros Hp Hk. rewrite (uniform_prior_run key value st p _ lower upper Hp Hk).
  split.
  - intros Hlo Hhi. apply num_le_not_lt in Hlo, Hhi.
    unfold num_gt. by rewrite Hlo, Hhi.
  - intros [H|H]; rewrite H; [reflexivity|].
    by rewrite orb_true_r.
Qed.

End UniformPrior.

Lemma uniform_prior_inside_outside_witness :
  (uniform_prior "k1" (Finite 1) example_state = (Ok (Finite 0), example_state)) /\
  (uniform_prior "k1" (Finite 2) example_state = (Ok PInf, example_state)).
Proof.
  split.
  - apply (uniform_prior_inside_outside example_state uniform_01 "k1"
             (Finite 0) (Finite 1) (Finite 1) eq_refl eq_refl).
    + num_cmp. reflexivity.
    + num_cmp. reflexivity.
  - apply (uniform_prior_inside_outside example_state uniform_01 "k1"
             (Finite 0) (Finite 1) (Finite 2) eq_refl eq_refl).
    left. num_cmp. reflexivity.
Defined.

(** C2, counterexample: with [["uniform", 0, 1]] the value [2.0] lies
    strictly above the upper bound and [uniform_prior] returns [+inf], not
    [-inf]. *)
Lemma uniform_prior_outside_is_not_neg_inf :
  num_gt (Finite 2) (Finite 1) = true /\
  fst (uniform_prior "k2" (Finite 2) example_state) = Ok PInf /\
  fst (uniform_prior "k2" (Finite 2) example_state) <> Ok NInf.
Proof.
  assert (Hgt : num_gt (Finite 2) (Finite 1) = true) by (num_cmp; reflexivity).
  assert (Hrun : fst (uniform_prior "k2" (Finite 2) example_state) = Ok PInf).
  { erewrite uniform_prior_run by reflexivity. simpl. by rewrite Hgt. }
  split_and!; [exact Hgt | exact Hrun | rewrite Hrun; discriminate].
Qed.

(** ** [check_prior] *)

Section CheckPrior.

Context {B : Backend}.

Lemma check_prior_step_uniform lp key v (st : state B) p lo hi :
  prior (self st) = Some p ->
  p !! key = Some [PStr "uniform"; PNum lo; PNum hi] ->
  check_prior_step lp key v st =
    (Ok (num_add lp (if num_gt v hi || num_lt v lo then PInf else Finite 0)), st).
Proof.
  intros Hp Hk. rewrite check_prior_step_contribution. py_simpl.
  by erewrite contribution_uniform by eassumption.
Qed.

(** C8 (as amended).  When every name of the mapping has a well-formed
    entry on which float arithmetic raises nothing (the square of a
    Gaussian standard deviation is a float to divide by, within the
    range and not zero, and the square of [-0.5*value - mean] is within
    the range of a float), [check_prior] returns the sum, accumulated from [0.0] in the order of
    the mapping, of the per-parameter contributions.  A contribution of
    [-inf] among otherwise finite ones would make the total [-inf]; but
    each contribution is [0.0] or [+inf], so the total is [+inf] as soon
    as one contribution is [+inf], whatever the others, and [0.0]
    otherwise; for the empty mapping it is [0.0]. *)
Theorem check_prior_sums_contributions
    (st : state B) (p : prior_dict) (d : params_dict) :
  prior (self st) = Some p ->
  well_formed_for p d ->
  exists cs : list num,
    Forall2 (fun kv c => fst (contribution kv.1 kv.2 st) = Ok c /\ prior_value c)
      d cs /\
    fst (check_prior d st) = Ok (fold_left num_add cs (Finite 0)) /\
    (In NInf cs -> Forall neg_inf_or_finite cs ->
     fst (check_prior d st) = Ok NInf) /\
    (In PInf cs -> fst (check_prior d st) = Ok PInf) /\
    (~ In PInf cs -> fst (check_prior d st) = Ok (Finite 0)) /\
    (d = [] -> fst (check_prior d st) = Ok (Finite 0)).
Proof.
  intros Hp Hwf.
  destruct (check_prior_loop_sum p d (Finite 0) st st Hp eq_refl Hwf)
    as (cs & Hcs & Hsum).
  assert (Hcs' : Forall2
            (fun kv c => fst (contribution kv.1 kv.2 st) = Ok c /\ prior_value c)
            d cs).
  { eapply Forall2_impl; [exact Hcs|]. intros [k v] c Hc. split; [exact Hc|].
    by eapply contribution_values. }
  assert (Hvals : Forall prior_value cs).
  { clear -Hcs'. induction Hcs' as [|kv c d cs [_ Hc] _ IH]; by constructor. }
  destruct (fold_add_prior_values cs Hvals) as [Hinf Hfin].
  exists cs. unfold check_prior. rewrite Hsum. split_and!.
  - exact Hcs'.
  - reflexivity.
  - intros Hin Hall. by rewrite fold_add_neg_inf.
  - intros Hin. by rewrite Hinf.
  - intros Hn. by rewrite Hfin.
  - intros ->. inversion Hcs. reflexivity.
Qed.

(** C10.  [check_prior] reads only the prior entries of the names in
    the mapping: on two prior specifications that agree on every such
    name it returns the same value (or raises the same exception) and
    emits the same warnings. *)
Theorem check_prior_reads_named_entries_only
    (st : state B) (p1 p2 : prior_dict) (d : params_dict) :
  (forall key value, In (key, value) d -> p1 !! key = p2 !! key) ->
  fst (check_prior d (with_prior (Some p1) st))
    = fst (check_prior d (with_prior (Some p2) st)) /\
  log (snd (check_prior d (with_prior (Some p1) st)))
    = log (snd (check_prior d (with_prior (Some p2) st))).
Proof.
  intros Hk. by apply (check_prior_loop_agree p1 p2).
Qed.

End CheckPrior.

(** [check_prior] on the two example mappings, for an interface with the
    prior [uniform_01]. *)
Lemma rejected_check_prior (B : Backend) m w names :
  check_prior example_params (fresh B m w names uniform_01)
    = (Ok PInf, fresh B m w names uniform_01).
Proof.
  unfold check_prior, example_params. simpl. py_simpl.
  erewrite check_prior_step_uniform by reflexivity. num_cmp.
  erewrite check_prior_step_uniform by reflexivity. num_cmp.
  by rewrite !num_add_0_l.
Qed.

Lemma admissible_check_prior (B : Backend) m w names :
  check_prior admissible_params (fresh B m w names uniform_01)
    = (Ok (Finite 0), fresh B m w names uniform_01).
Proof.
  unfold check_prior, admissible_params. simpl. py_simpl.
  erewrite check_prior_step_uniform by reflexivity. num_cmp.
  erewrite check_prior_step_uniform by reflexivity. num_cmp.
  by rewrite !num_add_0_l.
Qed.

Lemma example_check_prior :
  check_prior example_params example_state = (Ok PInf, example_state).
Proof. apply rejected_check_prior. Qed.

Lemma check_prior_reads_named_entries_only_witness :
  fst (check_prior example_params (with_prior (Some uniform_01) example_state))
    = fst (check_prior example_params
             (with_prior (Some uniform_01_extra) example_state)) /\
  log (snd (check_prior example_params
              (with_prior (Some uniform_01) example_state)))
    = log (snd (check_prior example_params
                  (with_prior (Some uniform_01_extra) example_state))).
Proof.
  apply (check_prior_reads_named_entries_only example_state uniform_01
           uniform_01_extra example_params).
  intros key value [H|[H|[]]]; inversion H; reflexivity.
Defined.

(** ** [get_likelihood_function] *)

Section Scoring.

Context {B : Backend}.
Implicit Types (st : state B) (data timepoints : ndarray).

Lemma Stochastic_rejected st params_values data timepoints measurements
    initial_conditions norm_order N_simulations debug lp st1 :
  check_prior (named_params (params_to_estimate (self st)) params_values) st
    = (Ok lp, st1) ->
  isfinite lp = false ->
  Stochastic_get_likelihood_function params_values data timepoints measurements
    initial_conditions norm_order N_simulations debug st = (Ok (Some NInf), st1).
Proof.
  intros Hcheck Hlp. unfold Stochastic_get_likelihood_function. py_simpl.
  rewrite Hcheck, Hlp. reflexivity.
Qed.

Lemma Deterministic_rejected st params_values data timepoints measurements
    initial_conditions norm_order debug lp st1 :
  check_prior (named_params (params_to_estimate (self st)) params_values) st
    = (Ok lp, st1) ->
  isfinite lp = false ->
  Deterministic_get_likelihood_function params_values data timepoints
    measurements initial_conditions norm_order debug st = (Ok (Some NInf), st1).
Proof.
  intros Hcheck Hlp. unfold Deterministic_get_likelihood_function. py_simpl.
  rewrite Hcheck, Hlp. reflexivity.
Qed.

(** C1.  When [check_prior] returns a log-prior that is not finite, both
    variants of [get_likelihood_function] return [-inf] at once: the
    state is the one [check_prior] left, in which no back-end call has
    been logged and the external world is untouched (no data container,
    no likelihood object, no simulation). *)
Theorem prior_rejection_short_circuits st params_values data timepoints
    measurements initial_conditions norm_order N_simulations debug lp st1 :
  check_prior (named_params (params_to_estimate (self st)) params_values) st
    = (Ok lp, st1) ->
  isfinite lp = false ->
  Stochastic_get_likelihood_function params_values data timepoints measurements
    initial_conditions norm_order N_simulations debug st = (Ok (Some NInf), st1) /\
  Deterministic_get_likelihood_function params_values data timepoints
    measurements initial_conditions norm_order debug st = (Ok (Some NInf), st1) /\
  calls (log st1) = calls (log st) /\
  world st1 = world st.
Proof.
  intros Hcheck Hlp.
  pose proof (check_prior_frame
    (named_params (params_to_estimate (self st)) params_values) st) as Hf.
  rewrite Hcheck in Hf. destruct Hf as (_ & Hw & Hc).
  split_and!; [by eapply Stochastic_rejected | by eapply Deterministic_rejected
              | exact Hc | exact Hw].
Qed.

(** *** The trace of a scoring call *)

Ltac norm_calls :=
  repeat (rewrite calls_app; simpl); rewrite ?app_nil_r, <- ?app_assoc; simpl.

Ltac replay_calls Hw :=
  simpl; rewrite <- ?Hw;
  repeat match goal with
         | H : ?f = (_, _) |- context [?f] => rewrite H; simpl
         end;
  reflexivity.

Ltac trace_leaf Hs Hw Hc :=
  simpl; split_and!;
  [ congruence
  | eexists; split_and!;
    [ etrans; [norm_calls; rewrite Hc; reflexivity
              | first [reflexivity | symmetry; apply app_nil_r]]
    | unfold scoring_calls; first
        [ left; reflexivity
        | right; eexists; split; [reflexivity|]; eauto 8 ]
    | first [ symmetry; exact Hw | replay_calls Hw ] ] ].

Lemma Stochastic_trace st params_values data timepoints measurements
    initial_conditions norm_order N_simulations debug :
  let st' := snd (Stochastic_get_likelihood_function params_values data
                    timepoints measurements initial_conditions norm_order
                    N_simulations debug st) in
  self st' = self st /\
  exists cs,
    calls (log st') = calls (log st) ++ cs /\
    scoring_calls data
      (CStochasticTrajectories B (np_array timepoints) data measurements)
      (fun d => CSTLL B (M (self st)) initial_conditions d N_simulations norm_order)
      (named_params (params_to_estimate (self st)) params_values) cs /\
    world st' = replay cs (world st).
Proof.
  unfold Stochastic_get_likelihood_function. py_simpl.
  pose proof (check_prior_frame
    (named_params (params_to_estimate (self st)) params_values) st)
    as (Hs & Hw & Hc).
  destruct (check_prior _ st) as [[lp|err] st1]; simpl in *;
    [|trace_leaf Hs Hw Hc].
  destruct (isfinite lp); simpl; [|trace_leaf Hs Hw Hc].
  destruct data as [[|N sh] contents]; py_simpl; [trace_leaf Hs Hw Hc|].
  destruct debug; py_simpl;
    (destruct (StochasticTrajectories B _ _ _ _ _) as [[d|err] w1] eqn:Hd;
       simpl; [|trace_leaf Hs Hw Hc];
     destruct (STLL B _ _ _ _ _ _) as [[e|err] w2] eqn:He; simpl;
       [|trace_leaf Hs Hw Hc];
     destruct (truthy B e); simpl; [|trace_leaf Hs Hw Hc];
     destruct (set_init_params B _ _ _) as [[[]|err] w3] eqn:Hb; simpl;
       [|trace_leaf Hs Hw Hc];
     destruct (py_log_likelihood B _ _) as [[ll|err] w4] eqn:Hl;
       trace_leaf Hs Hw Hc).
Qed.

Lemma Deterministic_trace st params_values data timepoints measurements
    initial_conditions norm_order debug :
  let st' := snd (Deterministic_get_likelihood_function params_values data
                    timepoints measurements initial_conditions norm_order
                    debug st) in
  self st' = self st /\
  exists cs,
    calls (log st') = calls (log st) ++ cs /\
    scoring_calls data
      (CBulkData B (np_array timepoints) data measurements)
      (fun d => CDLL B (M (self st)) initial_conditions d norm_order)
      (named_params (params_to_estimate (self st)) params_values) cs /\
    world st' = replay cs (world st).
Proof.
  unfold Deterministic_get_likelihood_function. py_simpl.
  pose proof (check_prior_frame
    (named_params (params_to_estimate (self st)) params_values) st)
    as (Hs & Hw & Hc).
  destruct (check_prior _ st) as [[lp|err] st1]; simpl in *;
    [|trace_leaf Hs Hw Hc].
  destruct (isfinite lp); simpl; [|trace_leaf Hs Hw Hc].
  destruct data as [[|N sh] contents]; py_simpl; [trace_leaf Hs Hw Hc|].
  destruct (BulkData B _ _ _ _ _) as [[d|err] w1] eqn:Hd; simpl;
    [|trace_leaf Hs Hw Hc].
  destruct debug; py_simpl;
    (destruct (DLL B _ _ _ _ _) as [[e|err] w2] eqn:He; simpl;
       [|trace_leaf Hs Hw Hc];
     destruct (truthy B e); simpl; [|trace_leaf Hs Hw Hc];
     destruct (set_init_params B _ _ _) as [[[]|err] w3] eqn:Hb; simpl;
       [|trace_leaf Hs Hw Hc];
     destruct (py_log_likelihood B _ _) as [[ll|err] w4] eqn:Hl;
       trace_leaf Hs Hw Hc).
Qed.

(** *** Runs past the prior check *)

Ltac past_prior Hcheck Hlp HN :=
  py_simpl; rewrite Hcheck; simpl; rewrite Hlp; simpl;
  match goal with
  | |- context [shape ?data] =>
      destruct data as [[|? ?] ?]; simpl in HN; simplify_eq
  end; py_simpl.

Section Accepted.

Variables (st st1 : state B) (params_values : list num) (lp : num).
Variables (data timepoints : ndarray) (measurements : list string).
Variables (initial_conditions : list params_dict) (N : nat).
Variables (norm_order N_simulations : nat) (debug : bool).

Let named := named_params (params_to_estimate (self st)) params_values.

Hypothesis Hcheck : check_prior named st = (Ok lp, st1).
Hypothesis Hlp : isfinite lp = true.
Hypothesis HN : nth_error (shape data) 0 = Some N.

Lemma Stochastic_accepted d w1 e w2 w3 ll w4 :
  StochasticTrajectories B (np_array timepoints) data measurements N (world st1)
    = (Ok d, w1) ->
  STLL B (M (self st)) initial_conditions d N_simulations norm_order w1
    = (Ok e, w2) ->
  truthy B e = true ->
  set_init_params B e named w2 = (Ok tt, w3) ->
  py_log_likelihood B e w3 = (Ok ll, w4) ->
  fst (Stochastic_get_likelihood_function params_values data timepoints
         measurements initial_conditions norm_order N_simulations debug st)
    = Ok (Some (num_add lp ll)).
Proof.
  intros Hd He Ht Hs Hl. unfold Stochastic_get_likelihood_function.
  unfold named in *. past_prior Hcheck Hlp HN.
  destruct debug; py_simpl; rewrite Hd; simpl; rewrite He; simpl;
    rewrite Ht; simpl; rewrite Hs; simpl; rewrite Hl; reflexivity.
Qed.

Lemma Deterministic_accepted d w1 e w2 w3 ll w4 :
  BulkData B (np_array timepoints) data measurements N (world st1)
    = (Ok d, w1) ->
  DLL B (M (self st)) initial_conditions d norm_order w1 = (Ok e, w2) ->
  truthy B e = true ->
  set_init_params B e named w2 = (Ok tt, w3) ->
  py_log_likelihood B e w3 = (Ok ll, w4) ->
  fst (Deterministic_get_likelihood_function params_values data timepoints
         measurements initial_conditions norm_order debug st)
    = Ok (Some (num_add lp ll)).
Proof.
  intros Hd He Ht Hs Hl. unfold Deterministic_get_likelihood_function.
  unfold named in *. past_prior Hcheck Hlp HN. rewrite Hd; simpl.
  destruct debug; py_simpl; rewrite He; simpl;
    rewrite Ht; simpl; rewrite Hs; simpl; rewrite Hl; reflexivity.
Qed.



Lemma Stochastic_falsy d w1 e w2 :
  StochasticTrajectories B (np_array timepoints) data measurements N (world st1)
    = (Ok d, w1) ->
  STLL B (M (self st)) initial_conditions d N_simulations norm_order w1
    = (Ok e, w2) ->
  truthy B e = false ->
  fst (Stochastic_get_likelihood_function params_values data timepoints
         measurements initial_conditions norm_order N_simulations debug st)
    = Ok None.
Proof.
  intros Hd He Ht. unfold Stochastic_get_likelihood_function.
  unfold named in *. past_prior Hcheck Hlp HN.
  destruct debug; py_simpl; rewrite Hd; simpl; rewrite He; simpl;
    rewrite Ht; reflexivity.
Qed.

Lemma Deterministic_falsy d w1 e w2 :
  BulkData B (np_array timepoints) data measurements N (world st1)
    = (Ok d, w1) ->
  DLL B (M (self st)) initial_conditions d norm_order w1 = (Ok e, w2) ->
  truthy B e = false ->
  fst (Deterministic_get_likelihood_function params_values data timepoints
         measurements initial_conditions norm_order debug st)
    = Ok None.
Proof.
  intros Hd He Ht. unfold Deterministic_get_likelihood_function.
  unfold named in *. past_prior Hcheck Hlp HN. rewrite Hd; simpl.
  destruct debug; py_simpl; rewrite He; simpl; rewrite Ht; reflexivity.
Qed.

End Accepted.

(** C4 (as amended).  When the prior is admissible, the likelihood
    object is truthy and the back-end calls return, both variants return
    [lp + ll] as float addition gives it, with no coercion; and since an
    admissible [lp] is [0.0], that is [ll] itself: a [nan] log-likelihood
    is returned as [nan], [-inf] as [-inf], [+inf] as [+inf]. *)
Theorem likelihood_is_added_without_coercion st st1 params_values lp data
    timepoints measurements initial_conditions N norm_order N_simulations debug :
  let named := named_params (params_to_estimate (self st)) params_values in
  check_prior named st = (Ok lp, st1) ->
  isfinite lp = true ->
  nth_error (shape data) 0 = Some N ->
  (forall d w1 e w2 w3 ll w4,
     StochasticTrajectories B (np_array timepoints) data measurements N
       (world st1) = (Ok d, w1) ->
     STLL B (M (self st)) initial_conditions d N_simulations norm_order w1
       = (Ok e, w2) ->
     truthy B e = true ->
     set_init_params B e named w2 = (Ok tt, w3) ->
     py_log_likelihood B e w3 = (Ok ll, w4) ->
     fst (Stochastic_get_likelihood_function params_values data timepoints
            measurements initial_conditions norm_order N_simulations debug st)
       = Ok (Some (num_add lp ll)) /\
     num_add lp ll = ll) /\
  (forall d w1 e w2 w3 ll w4,
     BulkData B (np_array timepoints) data measurements N (world st1)
       = (Ok d, w1) ->
     DLL B (M (self st)) initial_conditions d norm_order w1 = (Ok e, w2) ->
     truthy B e = true ->
     set_init_params B e named w2 = (Ok tt, w3) ->
     py_log_likelihood B e w3 = (Ok ll, w4) ->
     fst (Deterministic_get_likelihood_function params_values data timepoints
            measurements initial_conditions norm_order debug st)
       = Ok (Some (num_add lp ll)) /\
     num_add lp ll = ll).
Proof.
  intros named Hcheck Hlp HN.
  assert (Hzero : forall ll, num_add lp ll = ll).
  { intros ll. rewrite (check_prior_finite named st lp); [apply num_add_0_l | |done].
    by rewrite Hcheck. }
  split; intros d w1 e w2 w3 ll w4 Hd He Ht Hs Hl; (split; [|apply Hzero]).
  - by eapply Stochastic_accepted.
  - by eapply Deterministic_accepted.
Qed.


(** *** A likelihood object that cannot be constructed *)


(** *** Sequences of different lengths *)

Lemma zip_firstn {A C} (l : list A) : forall (l' : list C),
  zip l l' = zip (firstn (Nat.min (length l) (length l')) l)
                 (firstn (Nat.min (length l) (length l')) l').
Proof.
  induction l as [|a l IH]; intros [|c l']; simpl; try reflexivity.
  f_equal. apply IH.
Qed.

Lemma zip_firstn_r {A C} (l : list A) : forall (l' : list C),
  zip l (firstn (Nat.min (length l) (length l')) l') = zip l l'.
Proof.
  induction l as [|a l IH]; intros [|c l']; simpl; try reflexivity.
  f_equal. apply IH.
Qed.

(** The list of names is not read by [check_prior]. *)
Lemma contribution_with_names names key v st :
  contribution key v (with_names names st) =
    (let (r, st') := contribution key v st in (r, with_names names st')).
Proof.
  unfold contribution. py_simpl. rewrite !prior_getitem_run. simpl.
  destruct (prior (self st)) as [p|] eqn:Hp; [|reflexivity].
  destruct (p !! key) as [e|] eqn:Hk; [|reflexivity].
  destruct e as [|t rest]; py_simpl; [reflexivity|].
  destruct (tag_is t "uniform").
  - pose proof (uniform_prior_agree (with_names names st) st p p key v
                  Hp Hp eq_refl) as Hr.
    pose proof (uniform_prior_pure key v (with_names names st)) as Hs1.
    pose proof (uniform_prior_pure key v st) as Hs2.
    destruct (uniform_prior key v (with_names names st)) as [r1 s1].
    destruct (uniform_prior key v st) as [r2 s2]. simpl in *. by subst.
  - destruct (tag_is t "gaussian"); [|reflexivity].
    rewrite !gaussian_prior_unfold. simpl. rewrite Hp, Hk.
    destruct (gaussian_entry_pure (B:=B) (t :: rest) v) as (r & evs & _ & _ & Hrun).
    by rewrite !Hrun.
Qed.

Lemma check_prior_loop_with_names names d : forall lp st,
  check_prior_loop lp d (with_names names st) =
    (let (r, st') := check_prior_loop lp d st in (r, with_names names st')).
Proof.
  induction d as [|[key value] d IH]; intros lp st; simpl; [reflexivity|].
  py_simpl. rewrite !check_prior_step_contribution. py_simpl.
  rewrite contribution_with_names.
  destruct (contribution key value st) as [[c|e] st']; [apply IH | reflexivity].
Qed.

Lemma check_prior_with_names names d st :
  check_prior d (with_names names st) =
    (let (r, st') := check_prior d st in (r, with_names names st')).
Proof. apply check_prior_loop_with_names. Qed.

Lemma named_params_firstn (names : list string) (params_values : list num) :
  let n := Nat.min (length names) (length params_values) in
  named_params names params_values
    = named_params (firstn n names) (firstn n params_values).
Proof. intros n. unfold named_params, n. by rewrite <- zip_firstn. Qed.

(** C6 (as amended).  The lengths of [params_values] and
    [params_to_estimate] are not compared and a difference raises
    nothing: names and values are paired positionally up to the shorter
    length [n], and a call does what it does when the interface holds
    the first [n] names and is given the first [n] values, two sequences
    of the same length: the same result (value, [None] or exception), the
    same external state and the same log of warnings, prints and
    back-end calls; the list of names itself is left as it is. *)
Theorem length_mismatch_pairs_shorter_prefix st params_values data timepoints
    measurements initial_conditions norm_order N_simulations debug :
  let names := params_to_estimate (self st) in
  let n := Nat.min (length names) (length params_values) in
  let run_s := Stochastic_get_likelihood_function params_values data
                 timepoints measurements initial_conditions norm_order
                 N_simulations debug st in
  let cut_s := Stochastic_get_likelihood_function (firstn n params_values)
                 data timepoints measurements initial_conditions norm_order
                 N_simulations debug (with_names (firstn n names) st) in
  let run_d := Deterministic_get_likelihood_function params_values data
                 timepoints measurements initial_conditions norm_order
                 debug st in
  let cut_d := Deterministic_get_likelihood_function (firstn n params_values)
                 data timepoints measurements initial_conditions norm_order
                 debug (with_names (firstn n names) st) in
  length (firstn n names) = length (firstn n params_values) /\
  named_params names params_values
    = named_params (firstn n names) (firstn n params_values) /\
  (fst run_s = fst cut_s /\ world (snd run_s) = world (snd cut_s) /\
   log (snd run_s) = log (snd cut_s) /\ self (snd run_s) = self st) /\
  (fst run_d = fst cut_d /\ world (snd run_d) = world (snd cut_d) /\
   log (snd run_d) = log (snd cut_d) /\ self (snd run_d) = self st).
Proof.
  intros names n run_s cut_s run_d cut_d.
  pose proof (named_params_firstn names params_values) as Hnamed.
  cbv zeta in Hnamed. fold n in Hnamed.
  pose proof (check_prior_frame (named_params names params_values) st)
    as (Hself & _).
  split; [|split; [|split]].
  - rewrite !length_firstn. unfold n. lia.
  - exact Hnamed.
  - unfold run_s, cut_s, Stochastic_get_likelihood_function. py_simpl.
    fold names. rewrite <- Hnamed, check_prior_with_names.
    destruct (check_prior (named_params names params_values) st)
      as [[lp|e] [s1 w1 l1]]; simpl in *; [|done].
    subst s1. unfold debug_prints. destruct debug; py_simpl;
      repeat (case_match; simplify_eq; simpl in *; try done).
  - unfold run_d, cut_d, Deterministic_get_likelihood_function. py_simpl.
    fold names. rewrite <- Hnamed, check_prior_with_names.
    destruct (check_prior (named_params names params_values) st)
      as [[lp|e] [s1 w1 l1]]; simpl in *; [|done].
    subst s1. unfold debug_prints. destruct debug; py_simpl;
      repeat (case_match; simplify_eq; simpl in *; try done).
Qed.

(** Where only the binding changes the external world, the calls of a
    scoring call leave it as it was or as [set_init_params] made it. *)
Lemma replay_only_binding data (mk_data : nat -> call B)
    (mk_engine : DataObj B -> call B) (named : params_dict) cs (w : World B) :
  (forall N w', run_call (mk_data N) w' = w') ->
  (forall d w', run_call (mk_engine d) w' = w') ->
  (forall LL w', snd (py_log_likelihood B LL w') = w') ->
  scoring_calls data mk_data mk_engine named cs ->
  replay cs w = w \/
  exists LL, In (Cset_init_params B LL named) cs /\
             replay cs w = snd (set_init_params B LL named w).
Proof.
  intros Hdata Hengine Hll [->|(N & _ & [->|[(d & ->)|[(d & e & ->)|(d & e & ->)]]])];
    unfold replay; simpl; rewrite ?Hdata, ?Hengine, ?Hll; auto.
  - right. exists e. split; [|reflexivity]. right. right. by left.
  - right. exists e. split; [|reflexivity]. right. right. by left.
Qed.

(** C9 (as amended).  A scoring call of either variant leaves the
    attributes of the interface as they were, in every outcome (a value,
    [None] or an exception): the prior specification, the list
    [params_to_estimate] and the model handle.  Outside itself it acts
    only through the back-end calls it logs: the data container and the
    likelihood object are constructed, then [set_init_params] binds
    exactly the named parameters, then [py_log_likelihood] is called; no
    other call is made, and the external world after the scoring call is
    what these calls, in this order, made of the world before.  Nothing
    is undone: in a back end where the binding is the only change to the
    external world, that world is afterwards as it was (the binding was
    not reached) or as [set_init_params] left it. *)
Theorem scoring_leaves_configuration_unchanged st params_values data
    timepoints measurements initial_conditions norm_order N_simulations debug :
  let st_s := snd (Stochastic_get_likelihood_function params_values data
                     timepoints measurements initial_conditions norm_order
                     N_simulations debug st) in
  let st_d := snd (Deterministic_get_likelihood_function params_values data
                     timepoints measurements initial_conditions norm_order
                     debug st) in
  let named := named_params (params_to_estimate (self st)) params_values in
  (prior (self st_s) = prior (self st) /\
   params_to_estimate (self st_s) = params_to_estimate (self st) /\
   M (self st_s) = M (self st) /\
   exists cs,
     calls (log st_s) = calls (log st) ++ cs /\
     scoring_calls data
       (CStochasticTrajectories B (np_array timepoints) data measurements)
       (fun d => CSTLL B (M (self st)) initial_conditions d N_simulations
                   norm_order)
       named cs /\
     world st_s = replay cs (world st) /\
     (only_binding_mutates B ->
      world st_s = world st \/
      exists LL, In (Cset_init_params B LL named) cs /\
                 world st_s = snd (set_init_params B LL named (world st)))) /\
  (prior (self st_d) = prior (self st) /\
   params_to_estimate (self st_d) = params_to_estimate (self st) /\
   M (self st_d) = M (self st) /\
   exists cs,
     calls (log st_d) = calls (log st) ++ cs /\
     scoring_calls data
       (CBulkData B (np_array timepoints) data measurements)
       (fun d => CDLL B (M (self st)) initial_conditions d norm_order)
       named cs /\
     world st_d = replay cs (world st) /\
     (only_binding_mutates B ->
      world st_d = world st \/
      exists LL, In (Cset_init_params B LL named) cs /\
                 world st_d = snd (set_init_params B LL named (world st)))).
Proof.
  intros st_s st_d named. split.
  - destruct (Stochastic_trace st params_values data timepoints measurements
                initial_conditions norm_order N_simulations debug)
      as (Hs & cs & Hcs & Hsc & Hw).
    fold st_s in Hs, Hcs, Hw. fold named in Hsc. rewrite Hs.
    split_and!; try reflexivity. exists cs. split_and!; try done.
    intros (Hst & _ & Hstll & _ & Hll). rewrite Hw.
    eapply replay_only_binding; [| | exact Hll | exact Hsc]; intros; simpl; auto.
  - destruct (Deterministic_trace st params_values data timepoints
                measurements initial_conditions norm_order debug)
      as (Hs & cs & Hcs & Hsc & Hw).
    fold st_d in Hs, Hcs, Hw. fold named in Hsc. rewrite Hs.
    split_and!; try reflexivity. exists cs. split_and!; try done.
    intros (_ & Hbd & _ & Hdll & Hll). rewrite Hw.
    eapply replay_only_binding; [| | exact Hll | exact Hsc]; intros; simpl; auto.
Qed.

End Scoring.

Lemma prior_rejection_short_circuits_witness :
  Stochastic_get_likelihood_function [Finite (1 / 2); Finite 2] (data_of 5)
    timepoints_10 ["x"] [[("x", Finite 0)]] 2 3 false example_state
    = (Ok (Some NInf), example_state) /\
  Deterministic_get_likelihood_function [Finite (1 / 2); Finite 2] (data_of 5)
    timepoints_10 ["x"] [[("x", Finite 0)]] 2 false example_state
    = (Ok (Some NInf), example_state) /\
  calls (log example_state) = calls (log example_state) /\
  world example_state = world example_state.
Proof.
  apply (prior_rejection_short_circuits example_state
           [Finite (1 / 2); Finite 2] (data_of 5) timepoints_10 ["x"]
           [[("x", Finite 0)]] 2 3 false PInf example_state).
  - exact example_check_prior.
  - reflexivity.
Defined.

(** ** Scoring over the stub back ends *)

Lemma likelihood_is_added_without_coercion_witness :
  (fst (Stochastic_get_likelihood_function [Finite (1 / 2); Finite (1 / 2)]
          (data_of 5) timepoints_10 ["x"] one_initial_condition 2 3 false
          nan_state)
     = Ok (Some (num_add (Finite 0) NaN)) /\
   num_add (Finite 0) NaN = NaN) /\
  (fst (Deterministic_get_likelihood_function [Finite (1 / 2); Finite (1 / 2)]
          (data_of 5) timepoints_10 ["x"] one_initial_condition 2 false
          nan_state)
     = Ok (Some (num_add (Finite 0) NaN)) /\
   num_add (Finite 0) NaN = NaN).
Proof.
  destruct (likelihood_is_added_without_coercion nan_state nan_state
              [Finite (1 / 2); Finite (1 / 2)] (Finite 0) (data_of 5)
              timepoints_10 ["x"] one_initial_condition 5 2 3 false
              (admissible_check_prior nan_backend tt 0%nat ["k1"; "k2"])
              eq_refl eq_refl) as [HS HD].
  split.
  - apply (HS 5%nat 1%nat tt 2%nat 3%nat NaN 4%nat); reflexivity.
  - apply (HD 5%nat 1%nat tt 2%nat 3%nat NaN 4%nat); reflexivity.
Defined.

(** C4, counterexample: the prior is admissible ([k1 = k2 = 0.5] within
    [[0, 1]]), the back end returns [nan], and both variants return
    [nan], not [-inf]. *)
Lemma nan_likelihood_is_returned :
  fst (check_prior admissible_params nan_state) = Ok (Finite 0) /\
  fst (Stochastic_get_likelihood_function [Finite (1 / 2); Finite (1 / 2)]
         (data_of 5) timepoints_10 ["x"] one_initial_condition 2 3 false
         nan_state) = Ok (Some NaN) /\
  fst (Deterministic_get_likelihood_function [Finite (1 / 2); Finite (1 / 2)]
         (data_of 5) timepoints_10 ["x"] one_initial_condition 2 false
         nan_state) = Ok (Some NaN).
Proof.
  pose proof (admissible_check_prior nan_backend tt 0%nat ["k1"; "k2"]) as Hc.
  split_and!.
  - unfold nan_state. by rewrite Hc.
  - by erewrite (Stochastic_accepted nan_state nan_state _ (Finite 0) _ _ _ _ 5)
      by (exact Hc || reflexivity).
  - by erewrite (Deterministic_accepted nan_state nan_state _ (Finite 0) _ _ _ _ 5)
      by (exact Hc || reflexivity).
Qed.


(** C9, counterexample: over a back end that keeps the parameters bound
    onto the model, and in which no other call changes the external
    world, nothing is bound before the call and the named parameters are
    still bound after it: the binding is not transient. *)
Lemma binding_outlives_the_scoring_call :
  only_binding_mutates recording_backend /\
  world recording_state = None /\
  fst (Stochastic_get_likelihood_function [Finite (1 / 2); Finite (1 / 2)]
         (data_of 5) timepoints_10 ["x"] one_initial_condition 2 3 false
         recording_state) = Ok (Some (Finite (- (16 / 5)))) /\
  world (snd (Stochastic_get_likelihood_function
                [Finite (1 / 2); Finite (1 / 2)] (data_of 5) timepoints_10
                ["x"] one_initial_condition 2 3 false recording_state))
    = Some admissible_params /\
  fst (Deterministic_get_likelihood_function [Finite (1 / 2); Finite (1 / 2)]
         (data_of 5) timepoints_10 ["x"] one_initial_condition 2 false
         recording_state) = Ok (Some (Finite (- (16 / 5)))) /\
  world (snd (Deterministic_get_likelihood_function
                [Finite (1 / 2); Finite (1 / 2)] (data_of 5) timepoints_10
                ["x"] one_initial_condition 2 false recording_state))
    = Some admissible_params.
Proof.
  pose proof (admissible_check_prior recording_backend tt None ["k1"; "k2"])
    as Hc.
  assert (Hnamed : named_params ["k1"; "k2"] [Finite (1 / 2); Finite (1 / 2)]
                   = admissible_params) by reflexivity.
  split_and!.
  - by repeat split.
  - reflexivity.
  - unfold Stochastic_get_likelihood_function, recording_state. py_simpl.
    rewrite Hnamed, Hc. simpl. by rewrite num_add_0_l.
  - unfold Stochastic_get_likelihood_function, recording_state. py_simpl.
    rewrite Hnamed, Hc. reflexivity.
  - unfold Deterministic_get_likelihood_function, recording_state. py_simpl.
    rewrite Hnamed, Hc. simpl. by rewrite num_add_0_l.
  - unfold Deterministic_get_likelihood_function, recording_state. py_simpl.
    rewrite Hnamed, Hc. reflexivity.
Qed.

Lemma one_value_check_prior :
  check_prior (named_params ["k1"; "k2"] [Finite (1 / 2)]) example_state
    = (Ok (Finite 0), example_state).
Proof.
  unfold check_prior. simpl. py_simpl.
  erewrite check_prior_step_uniform by reflexivity. num_cmp.
  by rewrite !num_add_0_l.
Qed.

(** C6, counterexample: two names, one value.  No exception is raised:
    [k1] alone is paired and checked against its prior, and both variants
    return the stub's log-likelihood [-3.2]. *)
Lemma one_value_for_two_names_scores :
  length [Finite (1 / 2)] <> length (params_to_estimate (self example_state)) /\
  fst (Stochastic_get_likelihood_function [Finite (1 / 2)]
         (data_of 5) timepoints_10 ["x"] one_initial_condition 2 3 false
         example_state) = Ok (Some (Finite (- (16 / 5)))) /\
  fst (Deterministic_get_likelihood_function [Finite (1 / 2)]
         (data_of 5) timepoints_10 ["x"] one_initial_condition 2 false
         example_state) = Ok (Some (Finite (- (16 / 5)))).
Proof.
  split_and!.
  - simpl. discriminate.
  - erewrite (Stochastic_accepted example_state example_state _ (Finite 0) _ _ _ _ 5)
      by (exact one_value_check_prior || reflexivity).
    by rewrite num_add_0_l.
  - erewrite (Deterministic_accepted example_state example_state _ (Finite 0) _ _ _ _ 5)
      by (exact one_value_check_prior || reflexivity).
    by rewrite num_add_0_l.
Qed.



(** ** The Gaussian prior *)

Lemma Rlt_quotient (a b c : R) : 0 < c -> a * c < b -> a < b / c.
Proof.
  intros Hc H. apply (Rmult_lt_reg_r c); [exact Hc|].
  replace (b / c * c) with b by (field; lra). exact H.
Qed.

Lemma Rquotient_lt (a b c : R) : 0 < c -> a < b * c -> a / c < b.
Proof.
  intros Hc H. apply (Rmult_lt_reg_r c); [exact Hc|].
  replace (a / c * c) with a by (field; lra). exact H.
Qed.

Lemma sqrt_2pi_bounds : 2 < sqrt (2 * PI) < 3.
Proof.
  pose proof PI2_3_2. pose proof PI_4.
  split.
  - rewrite <- (sqrt_square 2) at 1 by lra. apply sqrt_lt_1; lra.
  - rewrite <- (sqrt_square 3) at 1 by lra. apply sqrt_lt_1; lra.
Qed.

Lemma numpy_in_range {B : Backend} op args (x : R) (st : state B) :
  in_range x -> numpy op args (Finite x) st = (Ok (Finite x), st).
Proof. intros H. unfold numpy. by rewrite np_outcome_in_range. Qed.

(** A numpy operation returns, whatever it warns of. *)
Lemma numpy_run {B : Backend} op args exact (st : state B) :
  exists st', numpy op args exact st = (Ok (np_outcome args exact).1, st').
Proof.
  destruct (pure_numpy (B:=B) op args exact) as (r & evs & _ & -> & H).
  eexists. apply H.
Qed.

Ltac step_numpy :=
  match goal with
  | |- context [numpy ?op ?args ?exact ?s] =>
      let s' := fresh "s" in
      let H := fresh "H" in
      destruct (numpy_run op args exact s) as [s' H]; rewrite H; simpl
  end.

(** The operators on [param_value] return, or raise one of the two
    exceptions of Python. *)
Lemma scalar_multiply_run {B : Backend} a b (st : state B) :
  exists st', scalar_multiply a b st = (Ok (float_of (num_mul a b)), st').
Proof.
  destruct (pure_scalar_multiply (B:=B) a b) as (r & evs & _ & -> & H).
  eexists. apply H.
Qed.

Lemma scalar_subtract_run {B : Backend} a b (st : state B) :
  exists st', scalar_subtract a b st = (Ok (float_of (num_sub a b)), st').
Proof.
  destruct (pure_scalar_subtract (B:=B) a b) as (r & evs & _ & -> & H).
  eexists. apply H.
Qed.

Lemma scalar_square_run {B : Backend} a (st : state B) :
  exists st',
    scalar_square a st = (Ok (float_of (num_sq a)), st') \/
    (~ square_in_range a /\ scalar_square a st = (Raise OverflowError, st')).
Proof.
  destruct (pure_scalar_square (B:=B) a) as (r & evs & _ & [->|[Hn ->]] & H);
    eexists; rewrite H; eauto.
Qed.

Lemma scalar_divide_run {B : Backend} a b (st : state B) :
  is_zero b = false ->
  exists st', scalar_divide a b st = (Ok (float_of (num_div a b)), st').
Proof.
  intros Hz.
  destruct (pure_scalar_divide (B:=B) a b) as (r & evs & _ & [->|[Hn ->]] & H);
    [|congruence].
  eexists. apply H.
Qed.

Ltac step_scalar :=
  match goal with
  | |- context [scalar_multiply ?a ?b ?s] =>
      let s' := fresh "s" in
      let H := fresh "H" in
      destruct (scalar_multiply_run a b s) as [s' H]; rewrite H; simpl
  | |- context [scalar_subtract ?a ?b ?s] =>
      let s' := fresh "s" in
      let H := fresh "H" in
      destruct (scalar_subtract_run a b s) as [s' H]; rewrite H; simpl
  end.

Section InRange.

Context {B : Backend}.
Implicit Types (st : state B).

Lemma scalar_multiply_in_range (x y : R) st :
  in_range (x * y) ->
  scalar_multiply (Finite x) (Finite y) st = (Ok (Finite (x * y)), st).
Proof.
  intros H. unfold scalar_multiply, np_multiply, py_float.
  destruct (scalar_kind B).
  - unfold_py. by rewrite num_mul_finite, float_of_in_range.
  - rewrite num_mul_finite. by apply numpy_in_range.
Qed.

Lemma scalar_subtract_in_range (x y : R) st :
  in_range (x + - y) ->
  scalar_subtract (Finite x) (Finite y) st = (Ok (Finite (x + - y)), st).
Proof.
  intros H. unfold scalar_subtract, np_subtract, py_float.
  destruct (scalar_kind B).
  - unfold_py. by rewrite num_sub_finite, float_of_in_range.
  - rewrite num_sub_finite. by apply numpy_in_range.
Qed.

Lemma scalar_square_in_range (x : R) st :
  in_range (x * x) ->
  scalar_square (Finite x) st = (Ok (Finite (x * x)), st).
Proof.
  intros H. unfold scalar_square, np_square, py_float_sq.
  destruct (scalar_kind B).
  - rewrite num_sq_finite. unfold in_range in H. by rewrite Rltb_false.
  - rewrite num_sq_finite. by apply numpy_in_range.
Qed.

Lemma scalar_divide_in_range (x y : R) st :
  y <> 0 -> in_range (x / y) ->
  scalar_divide (Finite x) (Finite y) st = (Ok (Finite (x / y)), st).
Proof.
  intros Hy H. unfold scalar_divide, np_divide, py_float_div.
  destruct (scalar_kind B).
  - simpl. rewrite Reqb_false by exact Hy. unfold_py.
    by rewrite num_div_finite, float_of_in_range.
  - rewrite num_div_finite by exact Hy. by apply numpy_in_range.
Qed.

Lemma py_float_sq_in_range (y : R) st :
  in_range (y * y) -> py_float_sq (Finite y) st = (Ok (Finite (y * y)), st).
Proof.
  intros H. unfold py_float_sq. rewrite num_sq_finite.
  by rewrite Rltb_false.
Qed.

Lemma py_float_sq_overflow (y : R) st :
  float_max < y * y -> py_float_sq (Finite y) st = (Raise OverflowError, st).
Proof.
  intros H. unfold py_float_sq. rewrite num_sq_finite.
  rewrite Rltb_true; [reflexivity|]. rewrite Rabs_pos_eq; [exact H | nra].
Qed.

(** A standard deviation whose square overflows makes [gaussian_prior]
    raise [OverflowError], whatever the value, the mean and the
    threshold. *)
Lemma gaussian_prior_square_overflows key v mu (sigma : R) st p tag thr :
  prior (self st) = Some p ->
  p !! key = Some [tag; PNum mu; PNum (Finite sigma); PNum thr] ->
  float_max < sigma * sigma ->
  fst (gaussian_prior key v st) = Raise OverflowError.
Proof.
  intros Hp Hk Hov.
  rewrite gaussian_prior_unfold, Hp, Hk, gaussian_entry_numeric. py_simpl.
  unfold gaussian_prob, np_multiply, np_divide, np_exp.
  py_simpl. do 2 step_numpy. do 2 step_scalar.
  match goal with
  | |- context [scalar_square ?a ?s] =>
      destruct (scalar_square_run a s) as [s' [Hsq|[_ Hsq]]];
        rewrite Hsq; simpl
  end; [|reflexivity].
  by rewrite py_float_sq_overflow.
Qed.

(** On Python floats, a standard deviation of zero makes
    [gaussian_prior] raise [ZeroDivisionError]. *)
Lemma gaussian_prior_zero_std_raises key v mu st p tag thr :
  scalar_kind B = PyFloat ->
  prior (self st) = Some p ->
  p !! key = Some [tag; PNum mu; PNum (Finite 0); PNum thr] ->
  square_in_range (shifted v mu) ->
  fst (gaussian_prior key v st) = Raise ZeroDivisionError.
Proof.
  intros Hkind Hp Hk Hv.
  rewrite gaussian_prior_unfold, Hp, Hk, gaussian_entry_numeric. py_simpl.
  unfold gaussian_prob, np_multiply, np_divide, np_exp.
  py_simpl. do 2 step_numpy. do 2 step_scalar.
  match goal with
  | |- context [scalar_square ?a ?s] =>
      destruct (scalar_square_run a s) as [s' [Hsq|[Hn _]]];
        [rewrite Hsq; simpl | exfalso; apply Hn; by apply shifted_float_square]
  end.
  rewrite py_float_sq_in_range by (apply in_range_small; lra). simpl.
  unfold scalar_divide, py_float_div. rewrite Hkind. simpl.
  unfold Reqb. destruct (Req_dec_T (0 * 0) 0) as [_|Hn]; [reflexivity | lra].
Qed.

(** On Python floats, a value whose shifted square overflows makes
    [gaussian_prior] raise [OverflowError]. *)
Lemma gaussian_prior_value_overflows key (v mu : R) sigma st p tag thr :
  scalar_kind B = PyFloat ->
  prior (self st) = Some p ->
  p !! key = Some [tag; PNum (Finite mu); PNum sigma; PNum thr] ->
  in_range (- (1 / 2) * v) ->
  in_range (- (1 / 2) * v + - mu) ->
  float_max < (- (1 / 2) * v + - mu) * (- (1 / 2) * v + - mu) ->
  fst (gaussian_prior key (Finite v) st) = Raise OverflowError.
Proof.
  intros Hkind Hp Hk H3 H4 Hov.
  rewrite gaussian_prior_unfold, Hp, Hk, gaussian_entry_numeric. py_simpl.
  unfold gaussian_prob, np_multiply, np_divide, np_exp.
  py_simpl. do 2 step_numpy.
  rewrite scalar_multiply_in_range by exact H3. simpl.
  rewrite scalar_subtract_in_range by exact H4. simpl.
  unfold scalar_square. rewrite Hkind.
  by rewrite py_float_sq_overflow.
Qed.

(** Within the range, the float computation of [prob] gives the exact
    value and warns of nothing. *)
Lemma gaussian_prob_in_range (v mu sigma : R) st :
  sigma <> 0 -> gaussian_in_range v mu sigma ->
  gaussian_prob (Finite v) (PNum (Finite mu)) (PNum (Finite sigma)) st
    = (Ok (Finite (1 / (sqrt (2 * PI) * sigma)
                   * exp ((- (1 / 2) * v + - mu) * (- (1 / 2) * v + - mu)
                          / (sigma * sigma)))), st).
Proof.
  intros Hs (H1 & H2 & H3 & H4 & H5 & H6 & H7 & H8 & H9).
  pose proof sqrt_2pi_bounds as Hb.
  assert (Hx1 : sqrt (2 * PI) * sigma <> 0) by nra.
  assert (Hx6 : sigma * sigma <> 0) by nra.
  unfold gaussian_prob, np_multiply, np_divide, np_exp, sqrt_2pi.
  py_simpl.
  rewrite !num_mul_finite, numpy_in_range by exact H1. simpl.
  rewrite num_div_finite, numpy_in_range by assumption. simpl.
  rewrite scalar_multiply_in_range by exact H3. simpl.
  rewrite scalar_subtract_in_range by exact H4. simpl.
  rewrite scalar_square_in_range by exact H5. simpl.
  rewrite py_float_sq_in_range by exact H6. simpl.
  rewrite scalar_divide_in_range by assumption. simpl.
  rewrite num_exp_finite, numpy_in_range by exact H8. simpl.
  rewrite num_mul_finite, numpy_in_range by exact H9. reflexivity.
Qed.

(** The value of [gaussian_prior] on an entry of four elements with
    finite mean, standard deviation and threshold, within the range. *)
Lemma gaussian_prior_in_range key (v mu sigma : R) st p tag thr :
  prior (self st) = Some p ->
  p !! key = Some [tag; PNum (Finite mu); PNum (Finite sigma); PNum thr] ->
  sigma <> 0 -> gaussian_in_range v mu sigma ->
  let prob := Finite (1 / (sqrt (2 * PI) * sigma)
                      * exp ((- (1 / 2) * v + - mu) * (- (1 / 2) * v + - mu)
                             / (sigma * sigma))) in
  gaussian_prior key (Finite v) st =
    (Ok (if num_lt prob thr then PInf else Finite 0),
     if num_gt prob (Finite 1) then
       mk_state (self st) (world st)
         (log st ++ [Warn "Probability greater than 1 while checking Gaussian prior! Something is wrong..."])
     else st).
Proof.
  intros Hp Hk Hs Hr prob.
  rewrite gaussian_prior_unfold, Hp, Hk, gaussian_entry_numeric. py_simpl.
  rewrite gaussian_prob_in_range by assumption. fold prob.
  destruct (num_gt prob (Finite 1)); simpl;
    destruct (num_lt prob thr); reflexivity.
Qed.

End InRange.

Lemma exp_4_le : exp 4 <= 81.
Proof.
  pose proof exp_le_3 as H1. pose proof (exp_pos 1) as H0.
  replace 4 with (1 + 1 + (1 + 1)) by lra. rewrite !exp_plus.
  assert (exp 1 * exp 1 <= 9) by nra.
  assert (0 < exp 1 * exp 1) by nra. nra.
Qed.

Lemma gaussian_in_range_4_0_1 : gaussian_in_range 4 0 1.
Proof.
  pose proof sqrt_2pi_bounds as Hb. pose proof exp_4_le as He.
  pose proof (exp_pos 4) as Hp.
  assert (Hinv : 0 < 1 / (sqrt (2 * PI) * 1) < 1).
  { split; [apply Rdiv_lt_0_compat; lra | apply Rquotient_lt; lra]. }
  unfold gaussian_in_range. cbv zeta.
  replace ((- (1 / 2) * 4 + - 0) * (- (1 / 2) * 4 + - 0) / (1 * 1)) with 4
    by lra.
  split_and!; apply in_range_small; try lra; nra.
Qed.

Lemma prob_value_4_0_1 :
  1 / (sqrt (2 * PI) * 1)
    * exp ((- (1 / 2) * 4 + - 0) * (- (1 / 2) * 4 + - 0) / (1 * 1))
  = exp 4 / sqrt (2 * PI).
Proof.
  pose proof sqrt_2pi_bounds as Hs.
  replace ((- (1 / 2) * 4 + - 0) * (- (1 / 2) * 4 + - 0) / (1 * 1)) with 4
    by lra.
  field. lra.
Qed.

(** The value of [prob] for [value = 4.0], [mu = 0.0], [sigma = 1.0]. *)
Lemma gaussian_prob_4_0_1 {B : Backend} (st : state B) :
  gaussian_prob (Finite 4) (PNum (Finite 0)) (PNum (Finite 1)) st
    = (Ok (Finite (exp 4 / sqrt (2 * PI))), st).
Proof.
  rewrite gaussian_prob_in_range;
    [ | lra | exact gaussian_in_range_4_0_1].
  by rewrite prob_value_4_0_1.
Qed.

(** C3, the code at the failing input: prior [["gaussian", 0, 1, 0.1]]
    and value [4.0], four standard deviations from the mean.  The standard
    density there is below the threshold [0.1], so the value is to be
    rejected; the code computes [exp(4)/sqrt(2*pi)], which is above 1,
    warns, and returns [0.0]. *)
Theorem gaussian_prior_accepts_four_sigma :
  spec_gaussian_density 4 0 1 < 1 / 10 /\
  gaussian_prob (Finite 4) (PNum (Finite 0)) (PNum (Finite 1)) gaussian_state
    = (Ok (Finite (exp 4 / sqrt (2 * PI))), gaussian_state) /\
  1 < exp 4 / sqrt (2 * PI) /\
  gaussian_prior "k" (Finite 4) gaussian_state
    = (Ok (Finite 0),
       mk_state (self gaussian_state) (world gaussian_state)
         [Warn "Probability greater than 1 while checking Gaussian prior! Something is wrong..."]).
Proof.
  pose proof sqrt_2pi_bounds as Hs.
  assert (Hprob : 1 < exp 4 / sqrt (2 * PI)).
  { pose proof (exp_ineq1_le 4). apply Rlt_quotient; lra. }
  split_and!.
  - unfold spec_gaussian_density.
    replace (- (1 / 2) * ((4 - 0) / 1) ^ 2) with (- 8) by field.
    pose proof (exp_ineq1_le 8) as H8. pose proof (exp_pos (- 8)) as Hpos.
    assert (Hinv : exp (- 8) * exp 8 = 1).
    { rewrite <- exp_plus. replace (- 8 + 8) with 0 by lra. apply exp_0. }
    apply Rquotient_lt; [lra|]. nra.
  - apply gaussian_prob_4_0_1.
  - exact Hprob.
  - erewrite gaussian_prior_in_range;
      [ | reflexivity | reflexivity | lra | exact gaussian_in_range_4_0_1].
    cbv zeta. rewrite prob_value_4_0_1.
    set (x := exp 4 / sqrt (2 * PI)) in *. num_cmp. reflexivity.
Qed.

(** ** [check_prior] on Gaussian entries *)

Lemma mixed_well_formed : well_formed_for uniform_and_gaussian mixed_params.
Proof.
  intros key value [H|[H|[]]]; inversion H; subst;
    (eexists; split; [reflexivity|]).
  - left. eauto.
  - right. do 3 eexists. split_and!; [reflexivity | | ].
    + simpl. pose proof float_tiny_small. pose proof float_max_large. lra.
    + unfold square_in_range, shifted. simpl. apply in_range_small. lra.
Defined.

Lemma check_prior_sums_contributions_witness :
  exists cs : list num,
    Forall2 (fun kv c => fst (contribution (B:=example_backend) kv.1 kv.2 mixed_state) = Ok c
                         /\ prior_value c)
      mixed_params cs /\
    fst (check_prior mixed_params mixed_state)
      = Ok (fold_left num_add cs (Finite 0)) /\
    (In NInf cs -> Forall neg_inf_or_finite cs ->
     fst (check_prior mixed_params mixed_state) = Ok NInf) /\
    (In PInf cs -> fst (check_prior mixed_params mixed_state) = Ok PInf) /\
    (~ In PInf cs ->
     fst (check_prior mixed_params mixed_state) = Ok (Finite 0)) /\
    (mixed_params = [] ->
     fst (check_prior mixed_params mixed_state) = Ok (Finite 0)).
Proof.
  apply (check_prior_sums_contributions mixed_state uniform_and_gaussian
           mixed_params).
  - reflexivity.
  - exact mixed_well_formed.
Defined.

Lemma square_1e200_overflows : float_max < IZR (10 ^ 200) * IZR (10 ^ 200).
Proof.
  unfold float_max. rewrite <- mult_IZR. apply IZR_lt. by vm_compute.
Qed.

Lemma half_1e200_in_range : in_range (- (1 / 2) * IZR (10 ^ 200)).
Proof.
  assert (H0 : 0 <= IZR (10 ^ 200)) by (apply IZR_le; by vm_compute).
  assert (H1 : IZR (10 ^ 200) <= float_max).
  { unfold float_max. apply IZR_le. by vm_compute. }
  unfold in_range. set (X := IZR (10 ^ 200)) in *.
  apply Rabs_le. lra.
Qed.

Lemma half_1e200_square_overflows :
  float_max < (- (1 / 2) * IZR (10 ^ 200) + - 0)
              * (- (1 / 2) * IZR (10 ^ 200) + - 0).
Proof.
  assert (H : 4 * float_max < IZR (10 ^ 200) * IZR (10 ^ 200)).
  { unfold float_max. rewrite <- !mult_IZR. apply IZR_lt. by vm_compute. }
  set (X := IZR (10 ^ 200)) in *. nra.
Qed.

(** [check_prior] on a mapping of one parameter with a Gaussian
    entry. *)
Lemma check_prior_one_gaussian {B : Backend} (st : state B) p key v mu sigma
    thr e :
  prior (self st) = Some p ->
  p !! key = Some [PStr "gaussian"; PNum mu; PNum sigma; PNum thr] ->
  fst (gaussian_prior key v st) = Raise e ->
  fst (check_prior [(key, v)] st) = Raise e.
Proof.
  intros Hp Hk H. unfold check_prior. simpl. py_simpl.
  rewrite check_prior_step_contribution. py_simpl.
  erewrite contribution_gaussian by eassumption.
  destruct (gaussian_prior key v st) as [r s1]. simpl in H. by subst r.
Qed.

(** C8, counterexample: entries in the format of the docstring on which
    [check_prior] returns no sum.  With [["gaussian", 0, 1e200, 0]] and
    [{"k": 0.0}], [sigma**2] is out of the range of a float and
    [OverflowError] is raised.  When the values are Python floats, with
    [["gaussian", 0, 0.0, 0.1]] and [{"k": 1.0}] the division by
    [sigma**2] raises [ZeroDivisionError], and with
    [["gaussian", 0, 1, 0.1]] and [{"k": 1e200}] the square of
    [-0.5*value - mean] raises [OverflowError]. *)
Lemma check_prior_float_exceptions :
  docstring_entry [PStr "gaussian"; PNum (Finite 0);
                   PNum (Finite (IZR (10 ^ 200))); PNum (Finite 0)] /\
  fst (check_prior [("k", Finite 0)] wide_state) = Raise OverflowError /\
  docstring_entry [PStr "gaussian"; PNum (Finite 0); PNum (Finite 0);
                   PNum (Finite (1 / 10))] /\
  fst (check_prior [("k", Finite 1)] zero_std_state) = Raise ZeroDivisionError /\
  docstring_entry [PStr "gaussian"; PNum (Finite 0); PNum (Finite 1);
                   PNum (Finite (1 / 10))] /\
  fst (check_prior [("k", Finite (IZR (10 ^ 200)))] python_gaussian_state)
    = Raise OverflowError.
Proof.
  split_and!; try (right; by eauto).
  - eapply check_prior_one_gaussian; [reflexivity | reflexivity |].
    eapply gaussian_prior_square_overflows;
      [reflexivity | reflexivity | exact square_1e200_overflows].
  - eapply check_prior_one_gaussian; [reflexivity | reflexivity |].
    eapply gaussian_prior_zero_std_raises;
      [reflexivity | reflexivity | reflexivity |].
    unfold square_in_range, shifted. simpl. apply in_range_small. lra.
  - eapply check_prior_one_gaussian; [reflexivity | reflexivity |].
    eapply gaussian_prior_value_overflows;
      [reflexivity | reflexivity | reflexivity | | | ].
    + exact half_1e200_in_range.
    + pose proof half_1e200_in_range as H.
      by replace (- (1 / 2) * IZR (10 ^ 200) + - 0)
        with (- (1 / 2) * IZR (10 ^ 200)) by lra.
    + exact half_1e200_square_overflows.
Qed.

(** ** The dictionary of named parameters *)

Lemma dict_set_present (d : params_dict) key p :
  In key (map fst d) -> map fst (dict_set d key p) = map fst d.
Proof.
  induction d as [|[k v] d IH]; simpl; [tauto|].
  destruct (String.eqb_spec k key) as [->|Hne]; simpl; [reflexivity|].
  intros [H|H]; [congruence|]. by rewrite IH.
Qed.

Lemma dict_set_absent (d : params_dict) key p :
  ~ In key (map fst d) -> dict_set d key p = d ++ [(key, p)].
Proof.
  induction d as [|[k v] d IH]; simpl; [reflexivity|].
  intros Hn. destruct (String.eqb_spec k key) as [->|Hne]; [tauto|].
  rewrite IH by tauto. reflexivity.
Qed.

Lemma dict_set_keys_unique (d : params_dict) key p :
  List.NoDup (map fst d) -> List.NoDup (map fst (dict_set d key p)).
Proof.
  intros Hd. destruct (in_dec string_dec key (map fst d)) as [Hin|Hn].
  - by rewrite dict_set_present.
  - rewrite dict_set_absent, map_app by assumption. simpl.
    apply NoDup_ListNoDup. apply NoDup_ListNoDup in Hd.
    apply NoDup_app. split_and!; [exact Hd | | apply NoDup_singleton].
    intros x Hx Hx'. apply list_elem_of_singleton in Hx' as ->.
    apply Hn. by apply list_elem_of_In.
Qed.

Lemma dict_set_binds (d : params_dict) key p : In (key, p) (dict_set d key p).
Proof.
  induction d as [|[k v] d IH]; simpl; [by left|].
  destruct (String.eqb_spec k key) as [->|Hne]; simpl; auto.
Qed.

Lemma dict_set_keeps_others (d : params_dict) key p k v :
  k <> key -> In (k, v) d -> In (k, v) (dict_set d key p).
Proof.
  intros Hne. induction d as [|[k' v'] d IH]; simpl; [tauto|].
  destruct (String.eqb_spec k' key) as [->|Hne']; simpl.
  - intros [H|H]; [congruence | by right].
  - intros [H|H]; [by left | right; by apply IH].
Qed.

Lemma fill_params_dict_keys_unique pairs : forall d : params_dict,
  List.NoDup (map fst d) -> List.NoDup (map fst (fill_params_dict d pairs)).
Proof.
  induction pairs as [|[k v] pairs IH]; intros d Hd; simpl; [exact Hd|].
  apply IH. by apply dict_set_keys_unique.
Qed.

Lemma fill_params_dict_keeps pairs : forall (d : params_dict) k v,
  ~ In k (map fst pairs) -> In (k, v) d -> In (k, v) (fill_params_dict d pairs).
Proof.
  induction pairs as [|[k' v'] pairs IH]; intros d k v Hn Hin; simpl in *;
    [exact Hin|].
  apply IH; [tauto|]. apply dict_set_keeps_others; [|exact Hin].
  intros ->. tauto.
Qed.

Lemma fill_params_dict_distinct names : forall (vals : list num) (d : params_dict),
  List.NoDup names ->
  (forall k, In k names -> ~ In k (map fst d)) ->
  fill_params_dict d (zip names vals) = d ++ zip names vals.
Proof.
  induction names as [|k names IH]; intros vals d Hnd Hdisj; simpl.
  - by rewrite app_nil_r.
  - destruct vals as [|v vals]; simpl; [by rewrite app_nil_r|].
    inversion Hnd as [|? ? Hk Hnd']; subst.
    rewrite dict_set_absent by (apply Hdisj; by left).
    rewrite IH; [by rewrite <- app_assoc | exact Hnd' |].
    intros k' Hk'. rewrite map_app, in_app_iff. simpl.
    intros [H|[H|[]]]; [|congruence].
    eapply Hdisj; [right; exact Hk' | exact H].
Qed.

(** X1.  The named parameters never hold a name twice, whatever the
    names and values given (also when [params_to_estimate] repeats a
    name). *)
Theorem named_params_keys_unique (names : list string) (params_values : list num) :
  List.NoDup (map fst (named_params names params_values)).
Proof.
  unfold named_params. apply fill_params_dict_keys_unique. constructor.
Qed.

(** X2.  When the names are pairwise distinct, the named parameters are
    exactly the positional pairs of [zip], in order. *)
Theorem named_params_of_distinct_names (names : list string)
    (params_values : list num) :
  List.NoDup names ->
  named_params names params_values = zip names params_values.
Proof.
  intros Hnd. unfold named_params.
  rewrite fill_params_dict_distinct; [reflexivity | exact Hnd | simpl; tauto].
Qed.

Lemma named_params_of_distinct_names_witness :
  named_params ["k1"; "k2"] [Finite (1 / 2); Finite 2]
    = zip ["k1"; "k2"] [Finite (1 / 2); Finite 2].
Proof.
  apply (named_params_of_distinct_names ["k1"; "k2"] [Finite (1 / 2); Finite 2]).
  repeat constructor; simpl; intros H; decompose [or] H; congruence.
Defined.

(** X3.  When a name is repeated, the value paired with its last
    occurrence (within the zipped prefix) is the one bound to it. *)
Theorem named_params_last_value_wins (names : list string)
    (params_values : list num) l1 key value l2 :
  zip names params_values = l1 ++ (key, value) :: l2 ->
  ~ In key (map fst l2) ->
  In (key, value) (named_params names params_values).
Proof.
  intros Hz Hn. unfold named_params, fill_params_dict.
  rewrite Hz, fold_left_app. simpl.
  apply (fill_params_dict_keeps l2); [exact Hn | apply dict_set_binds].
Qed.

Lemma named_params_last_value_wins_witness :
  In ("k", Finite 2) (named_params ["k"; "j"; "k"] [Finite 1; Finite 0; Finite 2]).
Proof.
  apply (named_params_last_value_wins ["k"; "j"; "k"]
           [Finite 1; Finite 0; Finite 2]
           [("k", Finite 1); ("j", Finite 0)] "k" (Finite 2) []).
  - reflexivity.
  - simpl. tauto.
Defined.

(** ** Errors of [check_prior] *)

Section PriorErrors.

Context {B : Backend}.
Implicit Types (st : state B) (p : prior_dict) (d : params_dict).

(** The loop over a concatenation: the second part runs from where the
    first one ended, unless the first one raised. *)
Lemma check_prior_loop_app d1 : forall d2 lp st,
  check_prior_loop lp (d1 ++ d2) st =
    match check_prior_loop lp d1 st with
    | (Ok lp1, st1) => check_prior_loop lp1 d2 st1
    | (Raise e, st1) => (Raise e, st1)
    end.
Proof.
  induction d1 as [|[key value] d1 IH]; intros d2 lp st; simpl.
  - reflexivity.
  - py_simpl. destruct (check_prior_step lp key value st) as [[lp'|e] st'];
      [apply IH | reflexivity].
Qed.

(** What raises at the first item after a prefix on which [check_prior]
    returns is what [check_prior] raises. *)
Lemma check_prior_raises_after_prefix d1 key value d2 st lp1 e :
  fst (check_prior d1 st) = Ok lp1 ->
  (forall lp st1, self st1 = self st ->
     fst (check_prior_step lp key value st1) = Raise e) ->
  fst (check_prior (d1 ++ (key, value) :: d2) st) = Raise e.
Proof.
  intros Hd1 Hstep. unfold check_prior in *. rewrite check_prior_loop_app.
  pose proof (check_prior_loop_frame d1 (Finite 0) st) as (Hs & _).
  destruct (check_prior_loop (Finite 0) d1 st) as [[lp|e'] st1]; simpl in *;
    [|discriminate].
  py_simpl. specialize (Hstep lp st1 Hs).
  destruct (check_prior_step lp key value st1) as [[lp'|e'] st']; simpl in *;
    [discriminate | exact Hstep].
Qed.

(** X4.  A name without an entry in the prior makes [check_prior] raise
    [KeyError] for that name, when [check_prior] returns on the names
    before it, whether or not some of those were rejected and whatever
    follows. *)
Theorem check_prior_missing_key_raises p d1 key value d2 st lp1 :
  prior (self st) = Some p ->
  fst (check_prior d1 st) = Ok lp1 ->
  p !! key = None ->
  fst (check_prior (d1 ++ (key, value) :: d2) st) = Raise (KeyError key).
Proof.
  intros Hp Hd1 Hk. eapply check_prior_raises_after_prefix; [done|].
  intros lp st1 Hs. unfold check_prior_step. py_simpl.
  by rewrite prior_getitem_run, Hs, Hp, Hk.
Qed.

(** X5.  An entry whose first element is neither ['uniform'] nor
    ['gaussian'] makes [check_prior] raise [ValueError('Prior type
    undefined.')], under the same condition on the names before it. *)
Theorem check_prior_undefined_tag_raises p d1 key value d2 st lp1 tag rest :
  prior (self st) = Some p ->
  fst (check_prior d1 st) = Ok lp1 ->
  p !! key = Some (tag :: rest) ->
  tag_is tag "uniform" = false ->
  tag_is tag "gaussian" = false ->
  fst (check_prior (d1 ++ (key, value) :: d2) st)
    = Raise (ValueError "Prior type undefined.").
Proof.
  intros Hp Hd1 Hk Hu Hg. eapply check_prior_raises_after_prefix; [done|].
  intros lp st1 Hs. unfold check_prior_step. py_simpl.
  rewrite prior_getitem_run, Hs, Hp, Hk. py_simpl. by rewrite Hu, Hg.
Qed.

(** X6.  An entry tagged ['uniform'] that does not have exactly three
    elements, or tagged ['gaussian'] without exactly four, makes
    [check_prior] raise the [ValueError] of the evaluator, under the same
    condition on the names before it. *)
Theorem check_prior_wrong_length_raises p d1 key value d2 st lp1 rest :
  prior (self st) = Some p ->
  fst (check_prior d1 st) = Ok lp1 ->
  (p !! key = Some (PStr "uniform" :: rest) -> length rest <> 2%nat ->
   fst (check_prior (d1 ++ (key, value) :: d2) st)
     = Raise (ValueError "For uniform distribution, the prior dictionary entry must be : [prior_type, lower_bound, upper_bound]")) /\
  (p !! key = Some (PStr "gaussian" :: rest) -> length rest <> 3%nat ->
   fst (check_prior (d1 ++ (key, value) :: d2) st)
     = Raise (ValueError "For Gaussian distribution, the dictionary entry must be : [prior_type, mean, std_dev, probability_threshold]")).
Proof.
  intros Hp Hd1. split; intros Hk Hlen;
    (eapply check_prior_raises_after_prefix; [done|]);
    intros lp st1 Hs; unfold check_prior_step; py_simpl;
    rewrite prior_getitem_run, Hs, Hp, Hk; py_simpl.
  - unfold uniform_prior. py_simpl. rewrite Hs, Hp, prior_getitem_run, Hs, Hp, Hk.
    py_simpl. destruct rest as [|? [|? [|? ?]]]; simpl in *; done.
  - unfold gaussian_prior. py_simpl. rewrite Hs, Hp, prior_getitem_run, Hs, Hp, Hk.
    py_simpl. destruct rest as [|? [|? [|? [|? ?]]]]; simpl in *; done.
Qed.

End PriorErrors.

(** [check_prior] returns on [{"k2": 2.0}], the value being rejected by
    the entry [["uniform", 0, 1]]. *)
Lemma rejected_prefix_returns {B : Backend} (st : state B) (p : prior_dict) :
  prior (self st) = Some p ->
  p !! "k2" = Some [PStr "uniform"; PNum (Finite 0); PNum (Finite 1)] ->
  fst (check_prior [("k2", Finite 2)] st) = Ok PInf.
Proof.
  intros Hp Hk. unfold check_prior. simpl. py_simpl.
  erewrite check_prior_step_uniform by eassumption. num_cmp.
  by rewrite !num_add_0_l.
Defined.

Lemma check_prior_missing_key_raises_witness :
  fst (check_prior ([("k2", Finite 2)] ++ ("k3", Finite 1) :: [("k1", Finite 0)])
         example_state) = Raise (KeyError "k3").
Proof.
  apply (check_prior_missing_key_raises uniform_01 [("k2", Finite 2)] "k3"
           (Finite 1) [("k1", Finite 0)] example_state PInf eq_refl
           (rejected_prefix_returns example_state uniform_01 eq_refl eq_refl)
           eq_refl).
Defined.

Lemma check_prior_undefined_tag_raises_witness :
  fst (check_prior ([("k2", Finite 2)] ++ ("k3", Finite 1) :: [])
         (with_prior (Some prior_unknown_tag) example_state))
    = Raise (ValueError "Prior type undefined.").
Proof.
  apply (check_prior_undefined_tag_raises prior_unknown_tag [("k2", Finite 2)]
           "k3" (Finite 1) [] (with_prior (Some prior_unknown_tag) example_state)
           PInf (PStr "lognormal") [PNum (Finite 0); PNum (Finite 1)] eq_refl
           (rejected_prefix_returns
              (with_prior (Some prior_unknown_tag) example_state)
              prior_unknown_tag eq_refl eq_refl)
           eq_refl eq_refl eq_refl).
Defined.

Lemma check_prior_wrong_length_raises_witness :
  fst (check_prior ([("k2", Finite 2)] ++ ("k3", Finite 1) :: [])
         (with_prior (Some prior_short_uniform) example_state))
    = Raise (ValueError "For uniform distribution, the prior dictionary entry must be : [prior_type, lower_bound, upper_bound]") /\
  fst (check_prior ([("k2", Finite 2)] ++ ("k3", Finite 1) :: [])
         (with_prior (Some uniform_01_extra) example_state))
    = Raise (ValueError "For Gaussian distribution, the dictionary entry must be : [prior_type, mean, std_dev, probability_threshold]").
Proof.
  split.
  - apply (proj1 (check_prior_wrong_length_raises prior_short_uniform
                    [("k2", Finite 2)] "k3" (Finite 1) []
                    (with_prior (Some prior_short_uniform) example_state)
                    PInf [PNum (Finite 0)] eq_refl
                    (rejected_prefix_returns
                       (with_prior (Some prior_short_uniform) example_state)
                       prior_short_uniform eq_refl eq_refl)));
      [reflexivity | simpl; discriminate].
  - apply (proj2 (check_prior_wrong_length_raises uniform_01_extra
                    [("k2", Finite 2)] "k3" (Finite 1) []
                    (with_prior (Some uniform_01_extra) example_state)
                    PInf [] eq_refl
                    (rejected_prefix_returns
                       (with_prior (Some uniform_01_extra) example_state)
                       uniform_01_extra eq_refl eq_refl)));
      [reflexivity | simpl; discriminate].
Defined.

Section PriorAccepts.

Context {B : Backend}.
Implicit Types (st : state B) (p : prior_dict) (d : params_dict).

Lemma tag_is_true (t : pyval) (tag : string) :
  tag_is t tag = true -> t = PStr tag.
Proof.
  destruct t as [s|x]; simpl; [|discriminate].
  intros H. apply String.eqb_eq in H. by subst.
Qed.

Lemma uniform_prior_ok_length key v st p e c :
  prior (self st) = Some p -> p !! key = Some e ->
  fst (uniform_prior key v st) = Ok c -> length e = 3%nat.
Proof.
  intros Hp Hk. unfold uniform_prior. py_simpl.
  rewrite Hp, prior_getitem_run, Hp, Hk. py_simpl.
  destruct (Nat.eqb_spec (length e) 3) as [Hl|Hl]; simpl; [done | discriminate].
Qed.

Lemma gaussian_prior_ok_length key v st p e c :
  prior (self st) = Some p -> p !! key = Some e ->
  fst (gaussian_prior key v st) = Ok c -> length e = 4%nat.
Proof.
  intros Hp Hk. rewrite gaussian_prior_unfold, Hp, Hk.
  destruct (gaussian_entry_pure (B:=B) e v) as (r & evs & _ & Hr & ->). simpl.
  intros ->. apply Hr.
Qed.

Lemma contribution_ok_recognized key v st c :
  fst (contribution key v st) = Ok c ->
  exists p e, prior (self st) = Some p /\ p !! key = Some e /\ recognized_entry e.
Proof.
  unfold contribution. py_simpl. rewrite prior_getitem_run.
  destruct (prior (self st)) as [p|] eqn:Hp; [|discriminate].
  destruct (p !! key) as [e|] eqn:Hk; [|discriminate].
  destruct e as [|t rest] eqn:He; py_simpl; [discriminate|].
  destruct (tag_is t "uniform") eqn:Hu.
  - intros H. apply tag_is_true in Hu as ->.
    exists p, (PStr "uniform" :: rest). split_and!; [done | done |].
    left. split; [reflexivity | by eapply uniform_prior_ok_length].
  - destruct (tag_is t "gaussian") eqn:Hg; [|discriminate].
    intros H. apply tag_is_true in Hg as ->.
    exists p, (PStr "gaussian" :: rest). split_and!; [done | done |].
    right. split; [reflexivity | by eapply gaussian_prior_ok_length].
Qed.

Lemma check_prior_loop_ok_recognized d : forall lp st lp',
  fst (check_prior_loop lp d st) = Ok lp' ->
  forall key value, In (key, value) d ->
    exists p e, prior (self st) = Some p /\ p !! key = Some e /\
                recognized_entry e.
Proof.
  induction d as [|[k v] d IH]; intros lp st lp' Hok key value Hin;
    [destruct Hin|].
  simpl in Hok. py_simpl. rewrite check_prior_step_contribution in Hok. py_simpl.
  pose proof (contribution_ok_recognized k v st) as Hc.
  pose proof (contribution_frame k v st) as (Hs & _).
  destruct (contribution k v st) as [[c|e] st']; simpl in *; [|discriminate].
  destruct Hin as [Heq|Hin].
  - inversion Heq; subst. by eapply Hc.
  - rewrite <- Hs. by eapply IH.
Qed.

(** X7.  [check_prior] returns a value only if every name of the
    mapping has an entry in the prior that is tagged ['uniform'] with
    three elements or ['gaussian'] with four. *)
Theorem check_prior_ok_entries_recognized d st lp :
  fst (check_prior d st) = Ok lp ->
  forall key value, In (key, value) d ->
    exists p e, prior (self st) = Some p /\ p !! key = Some e /\
                recognized_entry e.
Proof. apply check_prior_loop_ok_recognized. Qed.

End PriorAccepts.

Lemma check_prior_ok_entries_recognized_witness :
  exists p e, prior (self example_state) = Some p /\ p !! "k2" = Some e /\
              recognized_entry e.
Proof.
  apply (check_prior_ok_entries_recognized example_params example_state PInf)
    with (value := Finite 2).
  - by rewrite example_check_prior.
  - right. left. reflexivity.
Defined.

(** ** Edge cases of the evaluators *)

(** *** The values of float operations *)

Lemma float_of_at_least (x b : R) :
  b <= x -> 0 <= x -> at_least b (float_of (Finite x)).
Proof.
  intros Hb Hx. pose proof float_max_large as HF. unfold float_of.
  destruct (Rlt_dec float_max (Rabs x)) as [Hov|Hin].
  - rewrite (Rltb_true _ _ Hov). rewrite Rabs_pos_eq in Hov by exact Hx.
    rewrite Rltb_true by lra. by left.
  - rewrite Rltb_false by lra. right. eauto.
Qed.

Lemma float_of_finite_not_nan (x : R) : float_of (Finite x) <> NaN.
Proof.
  unfold float_of. destruct (Rltb float_max (Rabs x)); [|done].
  by destruct (Rltb 0 x).
Qed.

Lemma sub_not_nan (a : num) (mu : R) :
  a <> NaN -> float_of (num_sub a (Finite mu)) <> NaN.
Proof.
  destruct a as [x| | |]; intros Ha; try done.
  rewrite num_sub_finite. apply float_of_finite_not_nan.
Qed.

Lemma sq_at_least (a : num) : a <> NaN -> at_least 0 (float_of (num_sq a)).
Proof.
  destruct a as [x| | |]; intros Ha; try done; try by left.
  rewrite num_sq_finite. apply float_of_at_least; nra.
Qed.

Lemma div_at_least (a : num) (s2 : R) :
  0 < s2 -> at_least 0 a -> at_least 0 (float_of (num_div a (Finite s2))).
Proof.
  intros Hs [->|(x & -> & Hx)].
  - unfold num_div. rewrite Rltb_false by lra. by left.
  - rewrite num_div_finite by lra.
    assert (0 <= x / s2).
    { apply Rmult_le_pos; [exact Hx|]. left. by apply Rinv_0_lt_compat. }
    by apply float_of_at_least.
Qed.

Lemma exp_at_least (a : num) : at_least 0 a -> at_least 1 (float_of (num_exp a)).
Proof.
  intros [->|(x & -> & Hx)]; [by left|].
  rewrite num_exp_finite. pose proof (exp_ineq1_le x).
  apply float_of_at_least; lra.
Qed.

Lemma mul_at_least (b : R) (a c : num) :
  0 < b -> at_least b a -> at_least 1 c -> at_least b (float_of (num_mul a c)).
Proof.
  intros Hb [->|(x & -> & Hx)] [->|(y & -> & Hy)].
  - by left.
  - unfold num_mul, inf_signed. rewrite Reqb_false, Rltb_true by lra. by left.
  - unfold num_mul, inf_signed. rewrite Reqb_false, Rltb_true by lra. by left.
  - rewrite num_mul_finite. apply float_of_at_least; nra.
Qed.

Lemma at_least_not_lt (b t : R) (a : num) :
  t <= b -> at_least b a -> num_lt a (Finite t) = false.
Proof.
  intros Ht [->|(x & -> & Hx)]; [reflexivity|].
  unfold num_lt. apply Rltb_false. lra.
Qed.

Section EvaluatorEdges.

Context {B : Backend}.
Implicit Types (st : state B) (p : prior_dict).

(** The exponent that the code passes to [np.exp] is never negative, so
    [prob] is [+inf] or at least the peak density
    [1/(sqrt(2*pi)*sigma)]. *)
Lemma gaussian_prob_at_least_peak (v mu sigma : R) st :
  0 < sigma -> float_tiny <= sigma * sigma <= float_max ->
  in_range ((- (1 / 2) * v + - mu) * (- (1 / 2) * v + - mu)) ->
  exists prob,
    fst (gaussian_prob (Finite v) (PNum (Finite mu)) (PNum (Finite sigma)) st)
      = Ok prob /\
    at_least (1 / (sqrt (2 * PI) * sigma)) prob.
Proof.
  intros Hs Hdiv Hv. pose proof sqrt_2pi_bounds as Hb.
  pose proof float_max_large as HF.
  destruct (square_is_divisor_nonzero sigma Hdiv) as [Hnz Hsq].
  assert (Hx1 : in_range (sqrt (2 * PI) * sigma)).
  { unfold in_range in *.
    assert (0 <= sigma * sigma) by nra.
    assert (0 <= sqrt (2 * PI) * sigma) by nra.
    rewrite Rabs_pos_eq in Hsq by assumption.
    rewrite Rabs_pos_eq by assumption.
    pose proof (Rle_0_sqr (sigma - 3)) as Hq. unfold Rsqr in Hq.
    assert (3 * sigma <= float_max) by nra.
    assert (sqrt (2 * PI) * sigma <= 3 * sigma) by nra. lra. }
  assert (Hpeak : 0 < 1 / (sqrt (2 * PI) * sigma)).
  { apply Rdiv_lt_0_compat; nra. }
  assert (Ht4 : square_in_range
                  (float_of (num_sub (float_of (num_mul (Finite (- (1 / 2)))
                                                  (Finite v)))
                               (Finite mu)))).
  { apply shifted_float_square. exact Hv. }
  unfold gaussian_prob, np_multiply, np_divide, np_exp, sqrt_2pi.
  py_simpl.
  rewrite num_mul_finite, numpy_in_range by exact Hx1. simpl.
  rewrite num_div_finite by nra.
  step_numpy. do 2 step_scalar.
  match goal with
  | |- context [scalar_square ?a ?s] =>
      destruct (scalar_square_run a s) as [s' [Hsquare|[Hn _]]];
        [rewrite Hsquare; simpl | contradiction]
  end.
  rewrite py_float_sq_in_range by exact Hsq. simpl.
  match goal with
  | |- context [scalar_divide ?a ?b ?s] =>
      destruct (scalar_divide_run a b s) as [s'' Hdivide];
        [simpl; by apply Reqb_false | rewrite Hdivide; simpl]
  end.
  step_numpy. step_numpy.
  eexists. split; [reflexivity|]. rewrite !np_outcome_value.
  apply mul_at_least; [exact Hpeak | apply float_of_at_least; lra |].
  apply exp_at_least, div_at_least; [nra|].
  apply sq_at_least, sub_not_nan.
  rewrite num_mul_finite. apply float_of_finite_not_nan.
Qed.

(** The result of [gaussian_prior] on a numeric entry is decided by the
    value of [prob], which does not depend on the threshold. *)
Lemma gaussian_prior_by_prob (v mu sigma : num) :
  exists rp : result num,
    forall key st p tag thr,
      prior (self st) = Some p ->
      p !! key = Some [tag; PNum mu; PNum sigma; PNum thr] ->
      fst (gaussian_prior key v st) =
        match rp with
        | Ok prob => Ok (if num_lt prob thr then PInf else Finite 0)
        | Raise x => Raise x
        end.
Proof.
  destruct (gaussian_prob_pure (B:=B) v (PNum mu) (PNum sigma))
    as (rp & evs & _ & _ & Hrun).
  exists rp. intros key st p tag thr Hp Hk.
  rewrite gaussian_prior_unfold, Hp, Hk, gaussian_entry_numeric. py_simpl.
  rewrite Hrun. destruct rp as [prob|x]; [|reflexivity].
  destruct (num_gt prob (Finite 1)); py_simpl;
    destruct (num_lt prob thr); reflexivity.
Qed.

(** X8.  Raising the threshold of a Gaussian entry never turns a
    rejection into an acceptance: a value rejected under the threshold
    [t] is rejected under every threshold [t' >= t]. *)
Theorem gaussian_threshold_monotone st1 st2 p1 p2 key value tag mu sigma
    (t t' : R) :
  prior (self st1) = Some p1 ->
  p1 !! key = Some [tag; PNum mu; PNum sigma; PNum (Finite t)] ->
  prior (self st2) = Some p2 ->
  p2 !! key = Some [tag; PNum mu; PNum sigma; PNum (Finite t')] ->
  t <= t' ->
  fst (gaussian_prior key value st1) = Ok PInf ->
  fst (gaussian_prior key value st2) = Ok PInf.
Proof.
  intros Hp1 Hk1 Hp2 Hk2 Ht.
  destruct (gaussian_prior_by_prob value mu sigma) as [rp Hrp].
  rewrite (Hrp key st1 p1 tag (Finite t) Hp1 Hk1).
  rewrite (Hrp key st2 p2 tag (Finite t') Hp2 Hk2).
  destruct rp as [[x| | |]|e]; unfold num_lt; try (intros; done).
  destruct (Rlt_dec x t) as [Hx|Hx].
  - rewrite (Rltb_true x t Hx), (Rltb_true x t') by lra. done.
  - rewrite (Rltb_false x t) by lra. discriminate.
Qed.

(** X9.  With finite mean, a positive standard deviation whose square
    is a float to divide by (within the range and not zero, not by
    underflow either), and a threshold of at most
    [1/(4*sigma)] (below the peak density [1/(sqrt(2*pi)*sigma)]),
    [gaussian_prior] returns [0.0] for every finite value for which the
    square of [-0.5*value - mean] is within the range of a float: no such
    value is rejected, however far from the mean. *)
Theorem gaussian_prior_accepts_all_below_peak st p key tag (mu sigma t v : R) :
  prior (self st) = Some p ->
  p !! key = Some [tag; PNum (Finite mu); PNum (Finite sigma); PNum (Finite t)] ->
  0 < sigma ->
  float_tiny <= sigma * sigma <= float_max ->
  in_range ((- (1 / 2) * v + - mu) * (- (1 / 2) * v + - mu)) ->
  t <= 1 / (4 * sigma) ->
  fst (gaussian_prior key (Finite v) st) = Ok (Finite 0).
Proof.
  intros Hp Hk Hs Hsq Hv Ht. pose proof sqrt_2pi_bounds as Hb.
  assert (Hpeak : 1 / (4 * sigma) <= 1 / (sqrt (2 * PI) * sigma)).
  { unfold Rdiv. rewrite !Rmult_1_l. apply Rinv_le_contravar; nra. }
  rewrite gaussian_prior_unfold, Hp, Hk, gaussian_entry_numeric. py_simpl.
  destruct (gaussian_prob_at_least_peak v mu sigma st Hs Hsq Hv)
    as (prob & Hprob & Hge).
  destruct (gaussian_prob _ _ _ st) as [r st1]. simpl in Hprob. subst r.
  assert (Hlt : num_lt prob (Finite t) = false).
  { eapply at_least_not_lt; [|exact Hge]. lra. }
  destruct (num_gt prob (Finite 1)); py_simpl; by rewrite Hlt.
Qed.

(** X10.  A [nan] value passes the uniform prior: with numeric bounds,
    whatever they are, [uniform_prior] returns [0.0] for it. *)
Theorem uniform_prior_accepts_nan st p key tag lower upper :
  prior (self st) = Some p ->
  p !! key = Some [tag; PNum lower; PNum upper] ->
  uniform_prior key NaN st = (Ok (Finite 0), st).
Proof.
  intros Hp Hk. rewrite (uniform_prior_run key NaN st p tag lower upper Hp Hk).
  unfold num_gt, num_lt. by destruct lower, upper.
Qed.

(** X11.  Bounds given in the wrong order are not reported: with finite
    [lower > upper] every value other than [nan] is rejected with
    [+inf]. *)
Theorem uniform_prior_inverted_bounds_reject st p key tag (lower upper : R) value :
  prior (self st) = Some p ->
  p !! key = Some [tag; PNum (Finite lower); PNum (Finite upper)] ->
  upper < lower ->
  value <> NaN ->
  uniform_prior key value st = (Ok PInf, st).
Proof.
  intros Hp Hk Hlt Hv. rewrite (uniform_prior_run key value st p tag _ _ Hp Hk).
  unfold num_gt, num_lt. destruct value as [x| | |]; try done.
  destruct (Rlt_dec upper x) as [Hx|Hx].
  - by rewrite (Rltb_true upper x Hx).
  - rewrite (Rltb_false upper x), (Rltb_true x lower) by lra. done.
Qed.

End EvaluatorEdges.

Lemma gaussian_in_range_0_0_1 : gaussian_in_range 0 0 1.
Proof.
  pose proof sqrt_2pi_bounds as Hb.
  assert (Hinv : 0 < 1 / (sqrt (2 * PI) * 1) < 1).
  { split; [apply Rdiv_lt_0_compat; lra | apply Rquotient_lt; lra]. }
  unfold gaussian_in_range. cbv zeta.
  replace ((- (1 / 2) * 0 + - 0) * (- (1 / 2) * 0 + - 0) / (1 * 1)) with 0
    by lra.
  rewrite exp_0.
  split_and!; apply in_range_small; lra.
Qed.

Lemma gaussian_threshold_monotone_witness :
  fst (gaussian_prior "k" (Finite 0)
         (fresh example_backend tt 0%nat ["k"] (gaussian_with_threshold 1)))
    = Ok PInf.
Proof.
  apply (gaussian_threshold_monotone
           (fresh example_backend tt 0%nat ["k"] (gaussian_with_threshold (1 / 2)))
           (fresh example_backend tt 0%nat ["k"] (gaussian_with_threshold 1))
           (gaussian_with_threshold (1 / 2)) (gaussian_with_threshold 1)
           "k" (Finite 0) (PStr "gaussian") (Finite 0) (Finite 1) (1 / 2) 1
           eq_refl eq_refl eq_refl eq_refl).
  - lra.
  - erewrite gaussian_prior_in_range;
      [ | reflexivity | reflexivity | lra | exact gaussian_in_range_0_0_1].
    cbv zeta. unfold num_lt.
    rewrite Rltb_true; [reflexivity|].
    replace ((- (1 / 2) * 0 + - 0) * (- (1 / 2) * 0 + - 0) / (1 * 1)) with 0
      by (field; lra).
    rewrite exp_0. pose proof sqrt_2pi_bounds.
    replace (1 / (sqrt (2 * PI) * 1) * 1) with (1 / sqrt (2 * PI))
      by (field; lra).
    apply Rquotient_lt; lra.
Defined.

Lemma gaussian_prior_accepts_all_below_peak_witness :
  fst (gaussian_prior "k" (Finite 40) gaussian_state) = Ok (Finite 0).
Proof.
  apply (gaussian_prior_accepts_all_below_peak gaussian_state gaussian_0_1 "k"
           (PStr "gaussian") 0 1 (1 / 10) 40 eq_refl eq_refl).
  - lra.
  - pose proof float_tiny_small. pose proof float_max_large. lra.
  - apply in_range_small. lra.
  - lra.
Defined.

Lemma uniform_prior_accepts_nan_witness :
  uniform_prior "k1" NaN example_state = (Ok (Finite 0), example_state).
Proof.
  apply (uniform_prior_accepts_nan example_state uniform_01 "k1" (PStr "uniform")
           (Finite 0) (Finite 1) eq_refl eq_refl).
Defined.

Lemma uniform_prior_inverted_bounds_reject_witness :
  uniform_prior "k" (Finite (1 / 2))
    (fresh example_backend tt 0%nat ["k"] uniform_inverted)
  = (Ok PInf, fresh example_backend tt 0%nat ["k"] uniform_inverted).
Proof.
  apply (uniform_prior_inverted_bounds_reject
           (fresh example_backend tt 0%nat ["k"] uniform_inverted)
           uniform_inverted "k" (PStr "uniform") 1 0 (Finite (1 / 2))
           eq_refl eq_refl).
  - lra.
  - discriminate.
Defined.

(** ** What [check_prior] writes to the log *)

Section PriorLog.

Context {B : Backend}.
Implicit Types (st : state B) (d : params_dict).

Lemma gaussian_prior_log key v st :
  exists ws, Forall is_warning ws /\
    snd (gaussian_prior key v st) = appended st ws.
Proof.
  rewrite gaussian_prior_unfold.
  destruct (prior (self st)) as [p|];
    [|exists []; by rewrite appended_nil].
  destruct (p !! key) as [e|]; [|exists []; by rewrite appended_nil].
  destruct (gaussian_entry_pure (B:=B) e v) as (r & ws & Hws & _ & ->).
  by exists ws.
Qed.

Lemma contribution_log key v st :
  exists ws, Forall is_warning ws /\
    snd (contribution key v st) = appended st ws.
Proof.
  unfold contribution. py_simpl. rewrite prior_getitem_run.
  destruct (prior (self st)) as [p|];
    [|exists []; by rewrite appended_nil].
  destruct (p !! key) as [e|]; [|exists []; by rewrite appended_nil].
  destruct e as [|t rest]; py_simpl; [exists []; by rewrite appended_nil|].
  destruct (tag_is t "uniform").
  - exists []. by rewrite uniform_prior_pure, appended_nil.
  - destruct (tag_is t "gaussian");
      [apply gaussian_prior_log | exists []; by rewrite appended_nil].
Qed.

Lemma check_prior_loop_log d : forall lp st,
  exists ws, Forall is_warning ws /\
    snd (check_prior_loop lp d st) = appended st ws.
Proof.
  induction d as [|[key value] d IH]; intros lp st; simpl.
  - exists []. by rewrite appended_nil.
  - py_simpl. rewrite check_prior_step_contribution. py_simpl.
    destruct (contribution_log key value st) as (ws & Hws & Hl).
    destruct (contribution key value st) as [[c|e] st']; simpl in *; subst st'.
    + destruct (IH (num_add lp c) (appended st ws)) as (ws' & Hws' & ->).
      exists (ws ++ ws'). split; [by apply Forall_app|].
      by rewrite appended_app.
    + by exists ws.
Qed.

(** X12.  All that [check_prior] does to the state is append warnings to
    the log, the warning of [gaussian_prior] and the [RuntimeWarning]s of
    numpy: it prints nothing, calls nothing and leaves [self] and the
    world as they are, whether it returns or raises. *)
Theorem check_prior_only_warns d st :
  exists ws, Forall is_warning ws /\
    snd (check_prior d st) = appended st ws.
Proof. apply check_prior_loop_log. Qed.

End PriorLog.

(** ** A missing prior *)

Section NoPrior.

Context {B : Backend}.
Implicit Types (st : state B) (d : params_dict).

Lemma uniform_prior_not_no_prior key v st p :
  prior (self st) = Some p ->
  fst (uniform_prior key v st) <> Raise (ValueError "No prior found").
Proof.
  intros Hp. unfold uniform_prior. py_simpl. rewrite Hp, prior_getitem_run, Hp.
  py_cases; discriminate.
Qed.

Lemma gaussian_prior_not_no_prior key v st p :
  prior (self st) = Some p ->
  fst (gaussian_prior key v st) <> Raise (ValueError "No prior found").
Proof.
  intros Hp. rewrite gaussian_prior_unfold, Hp.
  destruct (p !! key) as [e|]; [|discriminate].
  destruct (gaussian_entry_pure (B:=B) e v) as (r & ws & _ & Hr & ->).
  simpl. intros ->. simpl in Hr.
  destruct Hr as [?|[?|[?|[?|?]]]]; discriminate.
Qed.

Lemma contribution_not_no_prior key v st :
  fst (contribution key v st) <> Raise (ValueError "No prior found").
Proof.
  unfold contribution. py_simpl. rewrite prior_getitem_run.
  destruct (prior (self st)) as [p|] eqn:Hp; [|discriminate].
  destruct (p !! key) as [e|]; [|discriminate].
  destruct e as [|t rest]; py_simpl; [discriminate|].
  destruct (tag_is t "uniform"); [by eapply uniform_prior_not_no_prior|].
  destruct (tag_is t "gaussian"); [by eapply gaussian_prior_not_no_prior|].
  discriminate.
Qed.

Lemma check_prior_loop_not_no_prior d : forall lp st,
  fst (check_prior_loop lp d st) <> Raise (ValueError "No prior found").
Proof.
  induction d as [|[key value] d IH]; intros lp st; simpl; [discriminate|].
  py_simpl. rewrite check_prior_step_contribution. py_simpl.
  pose proof (contribution_not_no_prior key value st) as Hc.
  destruct (contribution key value st) as [[c|e] st']; simpl in *;
    [apply IH | exact Hc].
Qed.

Lemma check_prior_no_prior_run d st :
  prior (self st) = None -> d <> [] ->
  check_prior d st = (Raise TypeError, st).
Proof.
  intros Hp Hd. destruct d as [|[key value] d]; [done|].
  unfold check_prior. simpl. py_simpl. unfold check_prior_step. py_simpl.
  by rewrite prior_getitem_run, Hp.
Qed.

(** X13.  The test [prior_dict is None] of the evaluators is never what
    [check_prior] reports.  With [prior = None] and a non-empty mapping
    it raises [TypeError] (from [self.prior[key]]) at the first item and
    changes nothing; and in no state does it raise
    [ValueError('No prior found')]. *)
Theorem check_prior_without_prior d st :
  (prior (self st) = None -> d <> [] ->
   check_prior d st = (Raise TypeError, st)) /\
  fst (check_prior d st) <> Raise (ValueError "No prior found").
Proof.
  split; [apply check_prior_no_prior_run | apply check_prior_loop_not_no_prior].
Qed.

End NoPrior.

(** ** Exceptions and edge cases of [get_likelihood_function] *)

Section ScoringErrors.

Context {B : Backend}.
Implicit Types (st : state B) (data timepoints : ndarray).

(** X14.  What [check_prior] raises, both variants raise unchanged, in
    the state [check_prior] left: no back-end call has been made and the
    external world is untouched. *)
Theorem prior_error_propagates st params_values data timepoints measurements
    initial_conditions norm_order N_simulations debug e st1 :
  check_prior (named_params (params_to_estimate (self st)) params_values) st
    = (Raise e, st1) ->
  Stochastic_get_likelihood_function params_values data timepoints measurements
    initial_conditions norm_order N_simulations debug st = (Raise e, st1) /\
  Deterministic_get_likelihood_function params_values data timepoints
    measurements initial_conditions norm_order debug st = (Raise e, st1) /\
  calls (log st1) = calls (log st) /\
  world st1 = world st.
Proof.
  intros Hcheck.
  pose proof (check_prior_frame
    (named_params (params_to_estimate (self st)) params_values) st) as Hf.
  rewrite Hcheck in Hf. destruct Hf as (_ & Hw & Hc).
  split_and!; [| | exact Hc | exact Hw].
  - unfold Stochastic_get_likelihood_function. py_simpl. by rewrite Hcheck.
  - unfold Deterministic_get_likelihood_function. py_simpl. by rewrite Hcheck.
Qed.

(** X15.  With an admissible prior and zero-dimensional data,
    [np.shape(data)[0]] raises [IndexError] in both variants, before any
    back-end call. *)
Theorem scalar_data_raises_IndexError st params_values data timepoints
    measurements initial_conditions norm_order N_simulations debug lp st1 :
  check_prior (named_params (params_to_estimate (self st)) params_values) st
    = (Ok lp, st1) ->
  isfinite lp = true ->
  shape data = [] ->
  Stochastic_get_likelihood_function params_values data timepoints measurements
    initial_conditions norm_order N_simulations debug st
    = (Raise IndexError, st1) /\
  Deterministic_get_likelihood_function params_values data timepoints
    measurements initial_conditions norm_order debug st
    = (Raise IndexError, st1) /\
  calls (log st1) = calls (log st).
Proof.
  intros Hcheck Hlp Hshape.
  pose proof (check_prior_frame
    (named_params (params_to_estimate (self st)) params_values) st) as Hf.
  rewrite Hcheck in Hf. destruct Hf as (_ & _ & Hc).
  destruct data as [sh contents]. simpl in Hshape. subst sh.
  split_and!; [| | exact Hc].
  - unfold Stochastic_get_likelihood_function. py_simpl.
    by rewrite Hcheck; simpl; rewrite Hlp.
  - unfold Deterministic_get_likelihood_function. py_simpl.
    by rewrite Hcheck; simpl; rewrite Hlp.
Qed.

End ScoringErrors.

Lemma short_gaussian_check_prior :
  check_prior (named_params (params_to_estimate (self short_gaussian_state))
                 [Finite 1]) short_gaussian_state
    = (Raise (ValueError "For Gaussian distribution, the dictionary entry must be : [prior_type, mean, std_dev, probability_threshold]"),
       short_gaussian_state).
Proof. reflexivity. Qed.

Lemma prior_error_propagates_witness :
  Stochastic_get_likelihood_function [Finite 1] (data_of 5) timepoints_10 ["x"]
    one_initial_condition 2 3 false short_gaussian_state
    = (Raise (ValueError "For Gaussian distribution, the dictionary entry must be : [prior_type, mean, std_dev, probability_threshold]"),
       short_gaussian_state) /\
  Deterministic_get_likelihood_function [Finite 1] (data_of 5) timepoints_10
    ["x"] one_initial_condition 2 false short_gaussian_state
    = (Raise (ValueError "For Gaussian distribution, the dictionary entry must be : [prior_type, mean, std_dev, probability_threshold]"),
       short_gaussian_state) /\
  calls (log short_gaussian_state) = calls (log short_gaussian_state) /\
  world short_gaussian_state = world short_gaussian_state.
Proof.
  apply (prior_error_propagates short_gaussian_state [Finite 1] (data_of 5)
           timepoints_10 ["x"] one_initial_condition 2 3 false _
           short_gaussian_state short_gaussian_check_prior).
Defined.

Lemma scalar_data_raises_IndexError_witness :
  Stochastic_get_likelihood_function [Finite (1 / 2); Finite (1 / 2)]
    scalar_data timepoints_10 ["x"] one_initial_condition 2 3 false
    example_state = (Raise IndexError, example_state) /\
  Deterministic_get_likelihood_function [Finite (1 / 2); Finite (1 / 2)]
    scalar_data timepoints_10 ["x"] one_initial_condition 2 false
    example_state = (Raise IndexError, example_state) /\
  calls (log example_state) = calls (log example_state).
Proof.
  apply (scalar_data_raises_IndexError example_state
           [Finite (1 / 2); Finite (1 / 2)] scalar_data timepoints_10 ["x"]
           one_initial_condition 2 3 false (Finite 0) example_state
           (admissible_check_prior example_backend tt 0%nat ["k1"; "k2"])
           eq_refl eq_refl).
Defined.

(** ** The debug flag *)

Section Debug.

Context {B : Backend}.
Implicit Types (st : state B) (data timepoints : ndarray).

Ltac drop_prints :=
  repeat (rewrite calls_app; simpl); rewrite ?app_nil_r; simpl.

Ltac same_run :=
  repeat (case_match; simplify_eq; simpl in * );
  split_and!; try reflexivity; drop_prints; reflexivity.

(** X16.  The flag [debug] only adds prints: with and without it a
    scoring call of either variant gives the same result (value, [None]
    or exception), makes the same back-end calls, and leaves the same
    external world and the same attributes. *)
Theorem debug_only_prints st params_values data timepoints measurements
    initial_conditions norm_order N_simulations :
  let S := fun debug =>
    Stochastic_get_likelihood_function params_values data timepoints
      measurements initial_conditions norm_order N_simulations debug st in
  let D := fun debug =>
    Deterministic_get_likelihood_function params_values data timepoints
      measurements initial_conditions norm_order debug st in
  (fst (S true) = fst (S false) /\
   calls (log (snd (S true))) = calls (log (snd (S false))) /\
   world (snd (S true)) = world (snd (S false)) /\
   self (snd (S true)) = self (snd (S false))) /\
  (fst (D true) = fst (D false) /\
   calls (log (snd (D true))) = calls (log (snd (D false))) /\
   world (snd (D true)) = world (snd (D false)) /\
   self (snd (D true)) = self (snd (D false))).
Proof.
  intros S D. subst S D. cbv beta. split.
  - unfold Stochastic_get_likelihood_function, debug_prints. py_simpl.
    destruct (check_prior _ st) as [[lp|err] st1]; simpl; [|done].
    destruct (isfinite lp); simpl; [|done].
    destruct data as [[|N sh] contents]; py_simpl; [done|].
    same_run.
  - unfold Deterministic_get_likelihood_function, debug_prints. py_simpl.
    destruct (check_prior _ st) as [[lp|err] st1]; simpl; [|done].
    destruct (isfinite lp); simpl; [|done].
    destruct data as [[|N sh] contents]; py_simpl; [done|].
    same_run.
Qed.

End Debug.

(** ** The outcomes of a scoring call *)

Section Outcomes.

Context {B : Backend}.
Implicit Types (st : state B) (data timepoints : ndarray).

Ltac run_cases := repeat (case_match; simplify_eq; simpl in * ).

(** X17.  A number returned by either variant is [-inf] or exactly what
    [py_log_likelihood] returned on a truthy likelihood object: the
    interface adds nothing to the back end's log-likelihood. *)
Theorem returned_number_is_neg_inf_or_likelihood st params_values data
    timepoints measurements initial_conditions norm_order N_simulations debug
    (x : num) :
  (fst (Stochastic_get_likelihood_function params_values data timepoints
          measurements initial_conditions norm_order N_simulations debug st)
     = Ok (Some x) ->
   x = NInf \/
   exists e w w', truthy B e = true /\ py_log_likelihood B e w = (Ok x, w')) /\
  (fst (Deterministic_get_likelihood_function params_values data timepoints
          measurements initial_conditions norm_order debug st)
     = Ok (Some x) ->
   x = NInf \/
   exists e w w', truthy B e = true /\ py_log_likelihood B e w = (Ok x, w')).
Proof.
  pose proof (check_prior_finite
    (named_params (params_to_estimate (self st)) params_values) st) as Hfin.
  split.
  - unfold Stochastic_get_likelihood_function. py_simpl.
    destruct (check_prior _ st) as [[lp|err] st1]; simpl in *; [|discriminate].
    destruct (isfinite lp) eqn:Hlp; simpl; [|intros; simplify_eq; by left].
    rewrite (Hfin lp eq_refl Hlp).
    destruct data as [[|N sh] contents]; py_simpl; [discriminate|].
    destruct debug; py_simpl; run_cases; intros Hx; simplify_eq; right;
      rewrite num_add_0_l; eauto.
  - unfold Deterministic_get_likelihood_function. py_simpl.
    destruct (check_prior _ st) as [[lp|err] st1]; simpl in *; [|discriminate].
    destruct (isfinite lp) eqn:Hlp; simpl; [|intros; simplify_eq; by left].
    rewrite (Hfin lp eq_refl Hlp).
    destruct data as [[|N sh] contents]; py_simpl; [discriminate|].
    destruct debug; py_simpl; run_cases; intros Hx; simplify_eq; right;
      rewrite num_add_0_l; eauto.
Qed.

(** X18.  Either variant returns [None] only when a likelihood object
    was constructed and is falsy. *)
Theorem None_only_for_falsy_engine st params_values data timepoints
    measurements initial_conditions norm_order N_simulations debug :
  (fst (Stochastic_get_likelihood_function params_values data timepoints
          measurements initial_conditions norm_order N_simulations debug st)
     = Ok None ->
   exists d e w w',
     STLL B (M (self st)) initial_conditions d N_simulations norm_order w
       = (Ok e, w') /\ truthy B e = false) /\
  (fst (Deterministic_get_likelihood_function params_values data timepoints
          measurements initial_conditions norm_order debug st)
     = Ok None ->
   exists d e w w',
     DLL B (M (self st)) initial_conditions d norm_order w = (Ok e, w') /\
     truthy B e = false).
Proof.
  split.
  - unfold Stochastic_get_likelihood_function. py_simpl.
    destruct (check_prior _ st) as [[lp|err] st1]; simpl in *; [|discriminate].
    destruct (isfinite lp) eqn:Hlp; simpl; [|discriminate].
    destruct data as [[|N sh] contents]; py_simpl; [discriminate|].
    destruct debug; py_simpl; run_cases; intros Hx; simplify_eq; eauto 8.
  - unfold Deterministic_get_likelihood_function. py_simpl.
    destruct (check_prior _ st) as [[lp|err] st1]; simpl in *; [|discriminate].
    destruct (isfinite lp) eqn:Hlp; simpl; [|discriminate].
    destruct data as [[|N sh] contents]; py_simpl; [discriminate|].
    destruct debug; py_simpl; run_cases; intros Hx; simplify_eq; eauto 8.
Qed.


End Outcomes.

Lemma returned_number_is_neg_inf_or_likelihood_witness :
  Finite (- (16 / 5)) = NInf \/
  exists e w w',
    truthy example_backend e = true /\
    py_log_likelihood example_backend e w = (Ok (Finite (- (16 / 5))), w').
Proof.
  apply (proj1 (returned_number_is_neg_inf_or_likelihood example_state
                  [Finite (1 / 2); Finite (1 / 2)] (data_of 5) timepoints_10
                  ["x"] one_initial_condition 2 3 false (Finite (- (16 / 5))))).
  erewrite (Stochastic_accepted example_state example_state _ (Finite 0) _ _ _ _ 5)
    by (exact (admissible_check_prior example_backend tt 0%nat ["k1"; "k2"])
        || reflexivity).
  by rewrite num_add_0_l.
Defined.

Lemma None_only_for_falsy_engine_witness :
  exists d e w w',
    STLL falsy_backend (M (self falsy_state)) one_initial_condition d 3 2 w
      = (Ok e, w') /\ truthy falsy_backend e = false.
Proof.
  apply (proj1 (None_only_for_falsy_engine falsy_state
                  [Finite (1 / 2); Finite (1 / 2)] (data_of 5) timepoints_10
                  ["x"] one_initial_condition 2 3 false)).
  by erewrite (Stochastic_falsy falsy_state falsy_state _ (Finite 0) _ _ _ _ 5)
    by (exact (admissible_check_prior falsy_backend tt 0%nat ["k1"; "k2"])
        || reflexivity).
Defined.



(** ** What the log-prior does not depend on *)

Section PriorIndependence.

Context {B : Backend}.
Implicit Types (st : state B) (d : params_dict).

Lemma check_prior_loop_self d : forall lp st st',
  self st = self st' ->
  fst (check_prior_loop lp d st) = fst (check_prior_loop lp d st').
Proof.
  induction d as [|[key value] d IH]; intros lp st st' Hs; simpl; [reflexivity|].
  py_simpl. rewrite !check_prior_step_contribution. py_simpl.
  pose proof (contribution_self st st' key value Hs) as Hc.
  pose proof (contribution_frame key value st) as (Hs1 & _).
  pose proof (contribution_frame key value st') as (Hs2 & _).
  destruct (contribution key value st) as [[c|e] st1];
    destruct (contribution key value st') as [[c'|e'] st1'];
    simpl in *; simplify_eq; [|reflexivity].
  apply IH. congruence.
Qed.

(** X20.  The value or exception of [check_prior] is determined by the
    attributes of the interface and the mapping: it depends neither on
    the state of the external model and engines nor on what was logged
    before, so repeating the check gives the same answer. *)
Theorem check_prior_independent_of_world d st st' :
  self st = self st' ->
  fst (check_prior d st) = fst (check_prior d st').
Proof. apply check_prior_loop_self. Qed.

End PriorIndependence.

Lemma check_prior_independent_of_world_witness :
  fst (check_prior example_params example_state)
    = fst (check_prior example_params busy_state).
Proof.
  apply (check_prior_independent_of_world example_params example_state
           busy_state).
  reflexivity.
Defined.

(** ** Where the named parameters come from *)

Lemma dict_set_origin (d : params_dict) key p k v :
  In (k, v) (dict_set d key p) -> In (k, v) d \/ (k, v) = (key, p).
Proof.
  induction d as [|[k' v'] d IH]; simpl.
  - intros [H|[]]. right. by symmetry.
  - destruct (String.eqb_spec k' key) as [->|Hne]; simpl.
    + intros [H|H]; [right; by symmetry | left; by right].
    + intros [H|H]; [left; by left|].
      destruct (IH H) as [?|?]; [left; by right | by right].
Qed.

Lemma fill_params_dict_origin pairs : forall (d : params_dict) k v,
  In (k, v) (fill_params_dict d pairs) -> In (k, v) d \/ In (k, v) pairs.
Proof.
  induction pairs as [|[k' v'] pairs IH]; intros d k v; simpl; [by left|].
  intros H. destruct (IH _ _ _ H) as [H'|H']; [|right; by right].
  destruct (dict_set_origin _ _ _ _ _ H') as [?|?]; [by left|].
  right. left. by symmetry.
Qed.

(** X21.  Every binding of the named parameters is a positional pair:
    a name is only ever bound to a value that stands at the position of
    one of its occurrences in [params_to_estimate]. *)
Theorem named_params_pairs_from_zip (names : list string)
    (params_values : list num) key value :
  In (key, value) (named_params names params_values) ->
  In (key, value) (zip names params_values).
Proof.
  intros H. unfold named_params in H.
  destruct (fill_params_dict_origin _ _ _ _ H) as [[]|H']. exact H'.
Qed.

Lemma named_params_pairs_from_zip_witness :
  In ("k", Finite 2) (zip ["k"; "j"; "k"] [Finite 1; Finite 0; Finite 2]).
Proof.
  apply (named_params_pairs_from_zip ["k"; "j"; "k"]
           [Finite 1; Finite 0; Finite 2] "k" (Finite 2)).
  unfold named_params. simpl. left. reflexivity.
Defined.

(** ** Construction without a prior *)

Lemma dict_set_nonempty (d : params_dict) key p : dict_set d key p <> [].
Proof. destruct d as [|[k v] d]; simpl; [done|]. by destruct (String.eqb k key). Qed.

Lemma fill_params_dict_nonempty pairs : forall d : params_dict,
  d <> [] -> fill_params_dict d pairs <> [].
Proof.
  induction pairs as [|[k v] pairs IH]; intros d Hd; simpl; [exact Hd|].
  apply IH, dict_set_nonempty.
Qed.

Lemma named_params_nonempty (names : list string) (params_values : list num) :
  names <> [] -> params_values <> [] -> named_params names params_values <> [].
Proof.
  destruct names as [|k names]; [done|].
  destruct params_values as [|v params_values]; [done|].
  intros _ _. unfold named_params. simpl.
  apply fill_params_dict_nonempty. done.
Qed.

Section Construction.

Context {B : Backend}.
Implicit Types (st : state B) (data timepoints : ndarray).

(** X22.  The constructors accept [prior = None] without complaint; a
    scoring call on an interface so constructed, with at least one name
    and one value, raises [TypeError] in both variants, before any
    back-end call. *)
Theorem scoring_without_prior_raises_TypeError st names (m : Model B)
    params_values data timepoints measurements initial_conditions norm_order
    N_simulations debug :
  names <> [] ->
  params_values <> [] ->
  let S :=
    (StochasticInference_init names m None;;
     Stochastic_get_likelihood_function params_values data timepoints
       measurements initial_conditions norm_order N_simulations debug) st in
  let D :=
    (DeterministicInference_init names m None;;
     Deterministic_get_likelihood_function params_values data timepoints
       measurements initial_conditions norm_order debug) st in
  fst S = Raise TypeError /\ calls (log (snd S)) = calls (log st) /\
  fst D = Raise TypeError /\ calls (log (snd D)) = calls (log st).
Proof.
  intros Hn Hv S D. subst S D.
  pose proof (named_params_nonempty names params_values Hn Hv) as Hne.
  unfold StochasticInference_init, DeterministicInference_init,
    PIDInterface_init, set_self, Stochastic_get_likelihood_function,
    Deterministic_get_likelihood_function.
  py_simpl. rewrite check_prior_no_prior_run by done. done.
Qed.

End Construction.

Lemma scoring_without_prior_raises_TypeError_witness :
  fst ((StochasticInference_init (B:=example_backend) ["k1"] tt None;;
        Stochastic_get_likelihood_function [Finite (1 / 2)] (data_of 5)
          timepoints_10 ["x"] one_initial_condition 2 3 false) example_state)
    = Raise TypeError /\
  calls (log (snd
    ((StochasticInference_init (B:=example_backend) ["k1"] tt None;;
      Stochastic_get_likelihood_function [Finite (1 / 2)] (data_of 5)
        timepoints_10 ["x"] one_initial_condition 2 3 false) example_state)))
    = calls (log example_state) /\
  fst ((DeterministicInference_init (B:=example_backend) ["k1"] tt None;;
        Deterministic_get_likelihood_function [Finite (1 / 2)] (data_of 5)
          timepoints_10 ["x"] one_initial_condition 2 false) example_state)
    = Raise TypeError /\
  calls (log (snd
    ((DeterministicInference_init (B:=example_backend) ["k1"] tt None;;
      Deterministic_get_likelihood_function [Finite (1 / 2)] (data_of 5)
        timepoints_10 ["x"] one_initial_condition 2 false) example_state)))
    = calls (log example_state).
Proof.
  apply (scoring_without_prior_raises_TypeError example_state ["k1"] tt
           [Finite (1 / 2)] (data_of 5) timepoints_10 ["x"]
           one_initial_condition 2 3 false); discriminate.
Defined.
